(** * ProctorClock: the coordinate mapper and the clock renderer

    A shallow embedding of [src/Analog_Clock.py] and [src/proctor_clock.py].

    Numbers.  Python [int]s are unbounded and are modelled by [Z].  Python
    [float]s are idealised as real numbers ([R]): rounding is not modelled,
    so every statement about coordinates and angles below is a statement
    about the formulas the code evaluates.  What is kept of float arithmetic
    is its one observable fault: [a / b] raises [ZeroDivisionError] when
    [b] is zero.

    Effects.  The clock talks to Tk through [root.title], [canvas.delete],
    [canvas.create_line] and [canvas.create_oval].  A method is modelled by a
    function that returns the calls it issues, in order, together with the
    new value of the object when it assigns to [self]. *)

From Stdlib Require Import Reals Lra Lia ZArith List String Ascii.
From Stdlib Require Import DecimalString.
Import ListNotations.

Open Scope R_scope.

(** ** Python values shared by the two files *)

(** The only exception the modelled code can raise. *)
Inductive exn : Type :=
| ZeroDivisionError.

(** A rectangle [(x_min, y_min, x_max, y_max)], as the 4-sequences that both
    constructors unpack. *)
Definition rect : Type := (R * R * R * R)%type.

(** [float(a) / float(b)]. *)
Definition float_div (a b : R) : exn + R :=
  if Req_dec_T b 0 then inl ZeroDivisionError else inr (a / b).

(** Sequencing of a computation that may raise. *)
Definition bind {A B : Type} (c : exn + A) (k : A -> exn + B) : exn + B :=
  match c with
  | inl e => inl e
  | inr a => k a
  end.

Notation "x <- c ;; k" := (bind c (fun x => k))
  (at level 61, c at next level, right associativity).

(** Python's [min(a, b)]: [b] when [b < a], otherwise [a]. *)
Definition py_min (a b : R) : R :=
  if Rlt_dec b a then b else a.

(** ** The clock's surroundings *)

(** [datetime.utcnow()] to the second: the seconds elapsed since an epoch
    that falls on a midnight.  Python's calendar has no leap seconds, so
    subtracting a [timedelta] and reading the time of day are plain integer
    arithmetic (microseconds never reach the code: [timetuple] drops them). *)
Definition datetime : Type := Z.

(** [timedelta(hours = h)], in seconds. *)
Definition timedelta_hours (h : Z) : Z := (3600 * h)%Z.

(** The [tm_hour], [tm_min] and [tm_sec] entries of [datetime.timetuple]. *)
Definition timetuple_hms (t : datetime) : Z * Z * Z :=
  (((t / 3600) mod 24)%Z, ((t / 60) mod 60)%Z, (t mod 60)%Z).

(** The decimal numeral of an integer, as [str] prints it. *)
Definition str_of_int (n : Z) : string :=
  NilZero.string_of_int (Z.to_int n).

(** ['%02i' % n]: the numeral, sign included, padded on the left with zeros
    to two characters. *)
Definition fmt_02i (n : Z) : string :=
  let s := str_of_int n in
  if (String.length s <? 2)%nat then ("0" ++ s)%string else s.

(** ['%02i:%02i:%02i' % (h, m, s)]. *)
Definition fmt_hms (h m s : Z) : string :=
  (fmt_02i h ++ ":" ++ fmt_02i m ++ ":" ++ fmt_02i s)%string.

(** The two points that [windowToViewport] returns and that Tk takes as the
    coordinates of an item. *)
Definition coords : Type := ((R * R) * (R * R))%type.

(** The Tk calls issued by the modelled methods.  A keyword argument that a
    call site does not pass is [None]. *)
Inductive tk_call : Type :=
| root_title (s : string)
| canvas_delete (tag : string)
| canvas_create_line (xy : coords) (fill : string) (tag : string)
    (width : option R) (arrow : option string)
| canvas_create_oval (xy : coords) (fill : string).

(** The truth value of the [event] argument of a key handler.  Tk calls a
    handler with an [Event] instance, which is true. *)
Definition event : Type := bool.

(** The keys that [__init__] binds to the time handlers: [f] and [v] move
    the clock a minute forward and back, [F] and [V] an hour, and the space
    bar resets it. *)
Inductive key : Type :=
| KeyPress_f
| KeyPress_v
| KeyPress_F
| KeyPress_V
| space.

(** Tkinter's [ALL], the tag that every item of a canvas has. *)
Definition ALL : string := "all".

(** Python's [min(a, b)] on integers. *)
Definition py_min_int (a b : Z) : Z :=
  if (b <? a)%Z then b else a.

(** [int(r)] of a float: the integer next to [r] towards zero. *)
Definition py_int (r : R) : Z :=
  if Rlt_dec r 0 then (- Int_part (- r))%Z else Int_part r.

(** The Tk calls of [resize]: those of a redraw and the two that lay the
    background.  An image is known by the size that it is resized to; the
    statements of PIL that make it are taken to return. *)
Inductive resize_call : Type :=
| redraw_call (c : tk_call)
| canvas_create_rectangle (xy : coords) (fill : string)
| canvas_create_image (x y : R) (size : Z * Z).

(** How a call of [main] ends: by [return 1] after the message
    [A timezone is expected.] is printed, by an [IndexError] that nothing
    catches, or in [root.mainloop()] with a clock built from these
    arguments. *)
Inductive main_exit : Type :=
| return_1
| IndexError
| mainloop (deltahours : Z) (sImage : bool) (w h : Z) (t : bool).

(** ** src/Analog_Clock.py *)

Module Analog_Clock.

(** [class mapper]: the attributes assigned by [__init__]. *)
Record mapper : Type := {
  world : rect;
  viewport : rect;
  f : R;
  c_1 : R;
  c_2 : R
}.

(** [mapper.__init__]. *)
Definition mapper_init (world viewport : rect) : exn + mapper :=
  let '(x_min, y_min, x_max, y_max) := world in
  let '(X_min, Y_min, X_max, Y_max) := viewport in
  f_x <- float_div (X_max - X_min) (x_max - x_min) ;;
  f_y <- float_div (Y_max - Y_min) (y_max - y_min) ;;
  let f := py_min f_x f_y in
  let x_c := 0.5 * (x_min + x_max) in
  let y_c := 0.5 * (y_min + y_max) in
  let X_c := 0.5 * (X_min + X_max) in
  let Y_c := 0.5 * (Y_min + Y_max) in
  inr {| world := world; viewport := viewport; f := f;
         c_1 := X_c - f * x_c;
         c_2 := Y_c - f * y_c |}.

(** [mapper.__windowToViewport]. *)
Definition __windowToViewport (self : mapper) (x y : R) : R * R :=
  let X := f self * x + c_1 self in
  let Y := f self * - y + c_2 self in
  (X, Y).

(** [mapper.windowToViewport]. *)
Definition windowToViewport (self : mapper) (x1 y1 x2 y2 : R)
  : (R * R) * (R * R) :=
  (__windowToViewport self x1 y1, __windowToViewport self x2 y2).

(** [class clock]: the attributes that the modelled methods read or assign.
    The Tk objects ([root], [canvas]) are represented by the calls made on
    them; the image attributes are used by [resize] only.  [self.world] is
    [clock_world] here, [world] being the mapper's attribute. *)
Record clock : Type := {
  clock_world : rect;
  showImage : bool;
  bgcolor : string;
  timecolor : string;
  circlecolor : string;
  circlesize : R;
  _ALL : string;
  pad : R;
  dMinutes : Z;
  dHours : Z;
  delta : Z;
  T : mapper
}.

(** [clock.setColors]. *)
Definition setColors (self : clock) : clock :=
  let '(bg, time, circle) :=
    if showImage self
    then ("antique white", "dark orange", "dark green")%string
    else ("#000000", "#ffffff", "#e0e0e0")%string in
  {| clock_world := clock_world self; showImage := showImage self;
     bgcolor := bg; timecolor := time; circlecolor := circle;
     circlesize := circlesize self; _ALL := _ALL self; pad := pad self;
     dMinutes := dMinutes self; dHours := dHours self; delta := delta self;
     T := T self |}.

(** [clock.__init__], as far as it assigns attributes: [have_image] is the
    outcome of [hasPIL and os.path.exists(self.imgPath)].  The colours do
    not exist before [setColors] runs.  The division of [width / 16] is the
    true division of Python 3, the interpreter that the imports try first. *)
Definition clock_init (have_image : bool) (deltahours : Z) (sImage : bool)
    (w h : R) : exn + clock :=
  let world := (-1, -1, 1, 1) in
  let showImage := if have_image then sImage else false in
  let pad := w / 16 in
  let viewport := (pad, pad, w - pad, h - pad) in
  T <- mapper_init world viewport ;;
  inr (setColors
         {| clock_world := world; showImage := showImage;
            bgcolor := ""; timecolor := ""; circlecolor := "";
            circlesize := 0.09; _ALL := "handles"; pad := pad;
            dMinutes := 0; dHours := 0; delta := deltahours;
            T := T |}).

(** [clock.paintcircle]. *)
Definition paintcircle (self : clock) (x y : R) : list tk_call :=
  let ss := circlesize self / 2.0 in
  [canvas_create_oval
     (windowToViewport (T self) (- ss + x) (- ss + y) (ss + x) (ss + y))
     (circlecolor self)].

(** The [h], [m], [s] of [clock.painthms] once the stored offsets are
    applied (the first four statements after the delete); [now] is the
    value of [datetime.utcnow()]. *)
Definition shown_hms (self : clock) (now : datetime) : Z * Z * Z :=
  let '(h, m, s) := timetuple_hms (now - timedelta_hours (delta self))%Z in
  let m := ((m + dMinutes self) mod 60)%Z in
  let h := ((h + dHours self) mod 12)%Z in
  (h, m, s).

(** [clock.painthms]. *)
Definition painthms (self : clock) (now : datetime) : list tk_call :=
  let '(h, m, s) := shown_hms self now in
  let angle_h := PI / 2 - PI / 6 * (IZR h + IZR m / 60.0) in
  let '(x_h, y_h) := (cos angle_h * 0.60, sin angle_h * 0.60) in
  let angle_m := PI / 2 - PI / 30 * (IZR m + IZR s / 60.0) in
  let '(x_m, y_m) := (cos angle_m * 0.90, sin angle_m * 0.90) in
  let angle_s := PI / 2 - PI / 30 * IZR s in
  let '(x_s, y_s) := (cos angle_s * 0.95, sin angle_s * 0.95) in
  [ canvas_delete (_ALL self);
    root_title (fmt_hms h m s);
    canvas_create_line (windowToViewport (T self) 0 0 x_h y_h)
      (timecolor self) (_ALL self) (Some (pad self / 3)) None;
    canvas_create_line (windowToViewport (T self) 0 0 x_m y_m)
      (timecolor self) (_ALL self) (Some (pad self / 5)) None;
    canvas_create_line (windowToViewport (T self) 0 0 x_s y_s)
      (timecolor self) (_ALL self) None (Some "last"%string) ].

(** [clock.redraw]. *)
Definition redraw (self : clock) (now : datetime) : list tk_call :=
  let start := PI / 2 in
  let step := PI / 6 in
  flat_map (fun i : nat =>
              let angle := start - INR i * step in
              let '(x, y) := (cos angle, sin angle) in
              paintcircle self x y)
           (seq 0 12)
  ++ painthms self now
  ++ (if negb (showImage self) then paintcircle self 0 0 else []).

(** [clock.seekTime]. *)
Definition seekTime (self : clock) (dh dm : Z) (now : datetime)
  : clock * list tk_call :=
  let self :=
    {| clock_world := clock_world self; showImage := showImage self;
       bgcolor := bgcolor self; timecolor := timecolor self;
       circlecolor := circlecolor self; circlesize := circlesize self;
       _ALL := _ALL self; pad := pad self;
       dMinutes := (dMinutes self + dm)%Z;
       dHours := (dHours self + dh)%Z;
       delta := delta self; T := T self |} in
  (self, redraw self now).

(** [clock.addMinute], [clock.subtractMinute], [clock.addHour] and
    [clock.subtractHour]. *)
Definition addMinute (self : clock) (_ : event) (now : datetime) :=
  seekTime self 0 1 now.

Definition subtractMinute (self : clock) (_ : event) (now : datetime) :=
  seekTime self 0 (-1) now.

Definition addHour (self : clock) (_ : event) (now : datetime) :=
  seekTime self 1 0 now.

Definition subtractHour (self : clock) (_ : event) (now : datetime) :=
  seekTime self (-1) 0 now.

(** [clock.resetTime]. *)
Definition resetTime (self : clock) (_ : event) (now : datetime)
  : clock * list tk_call :=
  let self :=
    {| clock_world := clock_world self; showImage := showImage self;
       bgcolor := bgcolor self; timecolor := timecolor self;
       circlecolor := circlecolor self; circlesize := circlesize self;
       _ALL := _ALL self; pad := pad self;
       dMinutes := 0; dHours := 0;
       delta := delta self; T := T self |} in
  (self, redraw self now).

(** The handler that [clock.__init__] binds to each key, called as Tk
    calls it. *)
Definition press (self : clock) (k : key) (now : datetime)
  : clock * list tk_call :=
  match k with
  | KeyPress_f => addMinute self true now
  | KeyPress_v => subtractMinute self true now
  | KeyPress_F => addHour self true now
  | KeyPress_V => subtractHour self true now
  | space => resetTime self true now
  end.

(** A run of key presses, each with the time at which it is handled. *)
Fixpoint presses (self : clock) (ks : list (key * datetime))
  : clock * list tk_call :=
  match ks with
  | [] => (self, [])
  | (k, now) :: ks =>
      let '(self, out) := press self k now in
      let '(self, outs) := presses self ks in
      (self, out ++ outs)
  end.

(** [clock.resize]; [width] and [height] are what [winfo_width] and
    [winfo_height] return.  The result is the clock, the calls issued and
    the exception that ends the call, if any: the constructor of the mapper
    can raise, and does so after the canvas is erased and [self.pad]
    assigned. *)
Definition resize (self : clock) (_ : event) (width height : Z)
    (now : datetime) : clock * list resize_call * option exn :=
  let imgSize := py_min_int width height in
  let self :=
    {| clock_world := clock_world self; showImage := showImage self;
       bgcolor := bgcolor self; timecolor := timecolor self;
       circlecolor := circlecolor self; circlesize := circlesize self;
       _ALL := _ALL self;
       pad := IZR imgSize / 16;
       dMinutes := dMinutes self; dHours := dHours self;
       delta := delta self; T := T self |} in
  let viewport :=
    (pad self, pad self, IZR width - pad self, IZR height - pad self) in
  match mapper_init (clock_world self) viewport with
  | inl e => (self, [redraw_call (canvas_delete ALL)], Some e)
  | inr T =>
      let self :=
        {| clock_world := clock_world self; showImage := showImage self;
           bgcolor := bgcolor self; timecolor := timecolor self;
           circlecolor := circlecolor self; circlesize := circlesize self;
           _ALL := _ALL self; pad := pad self;
           dMinutes := dMinutes self; dHours := dHours self;
           delta := delta self;
           T := T |} in
      let background :=
        if showImage self
        then canvas_create_image (IZR width / 2) (IZR height / 2)
               (py_int (0.8 * 0.8 * IZR imgSize), py_int (0.8 * IZR imgSize))
        else canvas_create_rectangle ((0, 0), (IZR width, IZR height))
               (bgcolor self) in
      (self,
       redraw_call (canvas_delete ALL) :: background
       :: map redraw_call (redraw self now),
       None)
  end.

(** [clock.toggleImage]; [have_image] is the outcome of
    [hasPIL and os.path.exists(self.imgPath)]. *)
Definition toggleImage (have_image : bool) (self : clock) (ev : event)
    (width height : Z) (now : datetime)
  : clock * list resize_call * option exn :=
  if have_image then
    let self :=
      {| clock_world := clock_world self;
         showImage := negb (showImage self);
         bgcolor := bgcolor self; timecolor := timecolor self;
         circlecolor := circlecolor self; circlesize := circlesize self;
         _ALL := _ALL self; pad := pad self;
         dMinutes := dMinutes self; dHours := dHours self;
         delta := delta self; T := T self |} in
    let self := setColors self in
    resize self ev width height now
  else (self, [], None).

(** [main]; [int] is Python's [int] on strings, [None] when it raises
    [ValueError], and [argv] the list that [main] works on. *)
Definition main (int : string -> option Z) (argv : list string)
  : main_exit :=
  if (2 <? List.length argv)%nat then
    match nth_error argv 1 with
    | None => IndexError
    | Some a1 =>
    match int a1 with
    | None => return_1
    | Some deltahours =>
    match nth_error argv 2 with
    | None => IndexError
    | Some a2 =>
    let sImage := String.eqb a2 "True" in
    match nth_error argv 3 with
    | None => IndexError
    | Some a3 =>
    match int a3 with
    | None => return_1
    | Some w =>
    match nth_error argv 4 with
    | None => IndexError
    | Some a4 =>
    match int a4 with
    | None => return_1
    | Some h =>
    match nth_error argv 5 with
    | None => IndexError
    | Some a5 =>
    let t := String.eqb a5 "True" in
    mainloop deltahours sImage w h t
    end end end end end end end end
  else
    mainloop 5 true 400 400 false.

End Analog_Clock.

(** ** src/proctor_clock.py *)

Module proctor_clock.

(** [class Mapper]: the attributes assigned by [__init__]. *)
Record Mapper : Type := {
  world : rect;
  viewport : rect;
  factor : R;
  c_1 : R;
  c_2 : R
}.

(** [Mapper.__init__]. *)
Definition Mapper_init (world viewport : rect) : exn + Mapper :=
  let '(x_min_world, y_min_world, x_max_world, y_max_world) := world in
  let '(x_min_viewport, y_min_viewport, x_max_viewport, y_max_viewport) :=
    viewport in
  x_factor <-
    float_div (x_max_viewport - x_min_viewport) (x_max_world - x_min_world) ;;
  y_factor <-
    float_div (y_max_viewport - y_min_viewport) (y_max_world - y_min_world) ;;
  let factor := py_min x_factor y_factor in
  let x_center_world := 0.5 * (x_min_world + x_max_world) in
  let y_center_world := 0.5 * (y_min_world + y_max_world) in
  let x_center_viewport := 0.5 * (x_min_viewport + x_max_viewport) in
  let y_center_viewport := 0.5 * (y_min_viewport + y_max_viewport) in
  inr {| world := world; viewport := viewport; factor := factor;
         c_1 := x_center_viewport - factor * x_center_world;
         c_2 := y_center_viewport - factor * y_center_world |}.

(** [Mapper._window_to_viewport]. *)
Definition _window_to_viewport (self : Mapper) (x_world y_world : R)
  : R * R :=
  let x_viewport := factor self * x_world + c_1 self in
  let y_viewport := factor self * - y_world + c_2 self in
  (x_viewport, y_viewport).

(** [Mapper.window_to_viewport]. *)
Definition window_to_viewport (self : Mapper)
    (x_world_1 y_world_1 x_world_2 y_world_2 : R) : coords :=
  let world_point_1 := _window_to_viewport self x_world_1 y_world_1 in
  let world_point_2 := _window_to_viewport self x_world_2 y_world_2 in
  (world_point_1, world_point_2).

(** [class Clock]: the attributes that the modelled methods read or assign;
    [self.world] is [Clock_world] here. *)
Record Clock : Type := {
  Clock_world : rect;
  show_image : bool;
  bgcolor : string;
  timecolor : string;
  circlecolor : string;
  secondcolor : string;
  circlesize : R;
  _all : string;
  pad : R;
  d_minutes : Z;
  d_hours : Z;
  delta : Z;
  my_mapper : Mapper
}.

(** [Clock.set_colors]. *)
Definition set_colors (self : Clock) : Clock :=
  let '(bg, time, circle, second) :=
    if show_image self
    then ("antique white", "dark orange", "dark green", "red")%string
    else ("#000000", "#ffffff", "#e0e0e0", "#ff0000")%string in
  {| Clock_world := Clock_world self; show_image := show_image self;
     bgcolor := bg; timecolor := time; circlecolor := circle;
     secondcolor := second;
     circlesize := circlesize self; _all := _all self; pad := pad self;
     d_minutes := d_minutes self; d_hours := d_hours self;
     delta := delta self; my_mapper := my_mapper self |}.

(** [Clock.__init__], as far as it assigns attributes: [have_image] is the
    outcome of [HAS_PIL and os.path.exists(self.img_path)]. *)
Definition Clock_init (have_image : bool) (delta_hours : Z)
    (is_show_image : bool) (width height : R) : exn + Clock :=
  let world := (-1, -1, 1, 1) in
  let show_image := if have_image then is_show_image else false in
  let pad := width / 16 in
  let viewport := (pad, pad, width - pad, height - pad) in
  my_mapper <- Mapper_init world viewport ;;
  inr (set_colors
         {| Clock_world := world; show_image := show_image;
            bgcolor := ""; timecolor := ""; circlecolor := "";
            secondcolor := "";
            circlesize := 0.09; _all := "handles"; pad := pad;
            d_minutes := 0; d_hours := 0; delta := delta_hours;
            my_mapper := my_mapper |}).

(** [Clock.paint_circle]. *)
Definition paint_circle (self : Clock) (x_coord y_coord : R)
  : list tk_call :=
  let circle_size := circlesize self / 2.0 in
  [canvas_create_oval
     (window_to_viewport (my_mapper self)
        (- circle_size + x_coord) (- circle_size + y_coord)
        (circle_size + x_coord) (circle_size + y_coord))
     (circlecolor self)].

(** The [hour], [minute], [second] of [Clock.paint_hms] once the stored
    offsets are applied; [now] is the value of [datetime.utcnow()]. *)
Definition shown_hms (self : Clock) (now : datetime) : Z * Z * Z :=
  let '(hour, minute, second) :=
    timetuple_hms (now - timedelta_hours (delta self))%Z in
  let minute := ((minute + d_minutes self) mod 60)%Z in
  let hour := ((hour + d_hours self) mod 12)%Z in
  (hour, minute, second).

(** [Clock.paint_hms]. *)
Definition paint_hms (self : Clock) (now : datetime) : list tk_call :=
  let '(hour, minute, second) := shown_hms self now in
  let angle_h := PI / 2 - PI / 6 * (IZR hour + IZR minute / 60.0) in
  let '(x_h, y_h) := (cos angle_h * 0.60, sin angle_h * 0.60) in
  let angle_m := PI / 2 - PI / 30 * (IZR minute + IZR second / 60.0) in
  let '(x_m, y_m) := (cos angle_m * 0.90, sin angle_m * 0.90) in
  let angle_s := PI / 2 - PI / 30 * IZR second in
  let '(x_s, y_s) := (cos angle_s * 0.95, sin angle_s * 0.95) in
  [ canvas_delete (_all self);
    root_title (fmt_hms hour minute second);
    canvas_create_line (window_to_viewport (my_mapper self) 0 0 x_h y_h)
      (timecolor self) (_all self) (Some (pad self / 3)) None;
    canvas_create_line (window_to_viewport (my_mapper self) 0 0 x_m y_m)
      (timecolor self) (_all self) (Some (pad self / 5)) None;
    canvas_create_line (window_to_viewport (my_mapper self) 0 0 x_s y_s)
      (secondcolor self) (_all self) (Some (pad self / 15)) None ].

(** [Clock.redraw]. *)
Definition redraw (self : Clock) (now : datetime) : list tk_call :=
  let start := PI / 2 in
  let step := PI / 6 in
  flat_map (fun i : nat =>
              let angle := start - INR i * step in
              let '(x_coord, y_coord) := (cos angle, sin angle) in
              paint_circle self x_coord y_coord)
           (seq 0 12)
  ++ paint_hms self now
  ++ (if negb (show_image self) then paint_circle self 0 0 else []).

(** [Clock.seek_time]. *)
Definition seek_time (self : Clock) (hour_change minute_change : Z)
    (now : datetime) : Clock * list tk_call :=
  let self :=
    {| Clock_world := Clock_world self; show_image := show_image self;
       bgcolor := bgcolor self; timecolor := timecolor self;
       circlecolor := circlecolor self; secondcolor := secondcolor self;
       circlesize := circlesize self; _all := _all self; pad := pad self;
       d_minutes := (d_minutes self + minute_change)%Z;
       d_hours := (d_hours self + hour_change)%Z;
       delta := delta self; my_mapper := my_mapper self |} in
  (self, redraw self now).

(** [Clock.add_minute], [Clock.subtract_minute], [Clock.add_hour] and
    [Clock.subtract_hour]: nothing happens on a false [event]. *)
Definition add_minute (self : Clock) (ev : event) (now : datetime) :=
  if ev then seek_time self 0 1 now else (self, []).

Definition subtract_minute (self : Clock) (ev : event) (now : datetime) :=
  if ev then seek_time self 0 (-1) now else (self, []).

Definition add_hour (self : Clock) (ev : event) (now : datetime) :=
  if ev then seek_time self 1 0 now else (self, []).

Definition subtract_hour (self : Clock) (ev : event) (now : datetime) :=
  if ev then seek_time self (-1) 0 now else (self, []).

(** [Clock.reset_time]. *)
Definition reset_time (self : Clock) (ev : event) (now : datetime)
  : Clock * list tk_call :=
  if ev then
    let self :=
      {| Clock_world := Clock_world self; show_image := show_image self;
         bgcolor := bgcolor self; timecolor := timecolor self;
         circlecolor := circlecolor self; secondcolor := secondcolor self;
         circlesize := circlesize self; _all := _all self; pad := pad self;
         d_minutes := 0; d_hours := 0;
         delta := delta self; my_mapper := my_mapper self |} in
    (self, redraw self now)
  else (self, []).

(** The handler that [Clock.__init__] binds to each key, called as Tk
    calls it. *)
Definition press (self : Clock) (k : key) (now : datetime)
  : Clock * list tk_call :=
  match k with
  | KeyPress_f => add_minute self true now
  | KeyPress_v => subtract_minute self true now
  | KeyPress_F => add_hour self true now
  | KeyPress_V => subtract_hour self true now
  | space => reset_time self true now
  end.

(** A run of key presses, each with the time at which it is handled. *)
Fixpoint presses (self : Clock) (ks : list (key * datetime))
  : Clock * list tk_call :=
  match ks with
  | [] => (self, [])
  | (k, now) :: ks =>
      let '(self, out) := press self k now in
      let '(self, outs) := presses self ks in
      (self, out ++ outs)
  end.

(** [Clock.resize]; [width] and [height] are what [winfo_width] and
    [winfo_height] return.  The result is the clock, the calls issued and
    the exception that ends the call, if any.  The resized image is an
    object of PIL, which is true. *)
Definition resize (self : Clock) (ev : event) (width height : Z)
    (now : datetime) : Clock * list resize_call * option exn :=
  if ev then
    let img_size := py_min_int width height in
    let self :=
      {| Clock_world := Clock_world self; show_image := show_image self;
         bgcolor := bgcolor self; timecolor := timecolor self;
         circlecolor := circlecolor self; secondcolor := secondcolor self;
         circlesize := circlesize self; _all := _all self;
         pad := IZR img_size / 16;
         d_minutes := d_minutes self; d_hours := d_hours self;
         delta := delta self; my_mapper := my_mapper self |} in
    let viewport :=
      (pad self, pad self, IZR width - pad self, IZR height - pad self) in
    match Mapper_init (Clock_world self) viewport with
    | inl e => (self, [redraw_call (canvas_delete ALL)], Some e)
    | inr my_mapper =>
        let self :=
          {| Clock_world := Clock_world self; show_image := show_image self;
             bgcolor := bgcolor self; timecolor := timecolor self;
             circlecolor := circlecolor self;
             secondcolor := secondcolor self;
             circlesize := circlesize self; _all := _all self;
             pad := pad self;
             d_minutes := d_minutes self; d_hours := d_hours self;
             delta := delta self;
             my_mapper := my_mapper |} in
        let background :=
          if show_image self
          then canvas_create_image (IZR width / 2) (IZR height / 2)
                 (py_int (0.8 * 0.8 * IZR img_size),
                  py_int (0.8 * IZR img_size))
          else canvas_create_rectangle ((0, 0), (IZR width, IZR height))
                 (bgcolor self) in
        (self,
         redraw_call (canvas_delete ALL) :: background
         :: map redraw_call (redraw self now),
         None)
    end
  else (self, [], None).

(** [Clock.toggle_image]; [have_image] is the outcome of
    [HAS_PIL and os.path.exists(self.img_path)]. *)
Definition toggle_image (have_image : bool) (self : Clock) (ev : event)
    (width height : Z) (now : datetime)
  : Clock * list resize_call * option exn :=
  if have_image then
    let self :=
      {| Clock_world := Clock_world self;
         show_image := negb (show_image self);
         bgcolor := bgcolor self; timecolor := timecolor self;
         circlecolor := circlecolor self; secondcolor := secondcolor self;
         circlesize := circlesize self; _all := _all self; pad := pad self;
         d_minutes := d_minutes self; d_hours := d_hours self;
         delta := delta self; my_mapper := my_mapper self |} in
    let self := set_colors self in
    resize self ev width height now
  else (self, [], None).

(** [main]; [int] is Python's [int] on strings, [None] when it raises
    [ValueError], and [argv] the list that [main] works on. *)
Definition main (int : string -> option Z) (argv : list string)
  : main_exit :=
  if (2 <? List.length argv)%nat then
    match nth_error argv 1 with
    | None => IndexError
    | Some a1 =>
    match int a1 with
    | None => return_1
    | Some delta_hours =>
    match nth_error argv 2 with
    | None => IndexError
    | Some a2 =>
    let is_show_image := String.eqb a2 "True" in
    match nth_error argv 3 with
    | None => IndexError
    | Some a3 =>
    match int a3 with
    | None => return_1
    | Some width =>
    match nth_error argv 4 with
    | None => IndexError
    | Some a4 =>
    match int a4 with
    | None => return_1
    | Some height =>
    match nth_error argv 5 with
    | None => IndexError
    | Some a5 =>
    let is_use_thread := String.eqb a5 "True" in
    mainloop delta_hours is_show_image width height is_use_thread
    end end end end end end end end
  else
    mainloop 5 true 400 400 false.

End proctor_clock.

(** ** The two files side by side *)

(** The attributes of an [Analog_Clock.mapper] under the names that
    [proctor_clock.Mapper] gives them. *)
Definition to_Mapper (m : Analog_Clock.mapper) : proctor_clock.Mapper :=
  {| proctor_clock.world := Analog_Clock.world m;
     proctor_clock.viewport := Analog_Clock.viewport m;
     proctor_clock.factor := Analog_Clock.f m;
     proctor_clock.c_1 := Analog_Clock.c_1 m;
     proctor_clock.c_2 := Analog_Clock.c_2 m |}.

(** The attributes of an [Analog_Clock.clock] under the names that
    [proctor_clock.Clock] gives them; [second] is the colour of the second
    hand, which only the latter has. *)
Definition to_Clock (second : string) (c : Analog_Clock.clock)
  : proctor_clock.Clock :=
  {| proctor_clock.Clock_world := Analog_Clock.clock_world c;
     proctor_clock.show_image := Analog_Clock.showImage c;
     proctor_clock.bgcolor := Analog_Clock.bgcolor c;
     proctor_clock.timecolor := Analog_Clock.timecolor c;
     proctor_clock.circlecolor := Analog_Clock.circlecolor c;
     proctor_clock.secondcolor := second;
     proctor_clock.circlesize := Analog_Clock.circlesize c;
     proctor_clock._all := Analog_Clock._ALL c;
     proctor_clock.pad := Analog_Clock.pad c;
     proctor_clock.d_minutes := Analog_Clock.dMinutes c;
     proctor_clock.d_hours := Analog_Clock.dHours c;
     proctor_clock.delta := Analog_Clock.delta c;
     proctor_clock.my_mapper := to_Mapper (Analog_Clock.T c) |}.

(** A clock with its stored offsets replaced and every other attribute
    kept. *)
Definition clock_with_offsets (c : Analog_Clock.clock) (dh dm : Z)
  : Analog_Clock.clock :=
  {| Analog_Clock.clock_world := Analog_Clock.clock_world c;
     Analog_Clock.showImage := Analog_Clock.showImage c;
     Analog_Clock.bgcolor := Analog_Clock.bgcolor c;
     Analog_Clock.timecolor := Analog_Clock.timecolor c;
     Analog_Clock.circlecolor := Analog_Clock.circlecolor c;
     Analog_Clock.circlesize := Analog_Clock.circlesize c;
     Analog_Clock._ALL := Analog_Clock._ALL c;
     Analog_Clock.pad := Analog_Clock.pad c;
     Analog_Clock.dMinutes := dm;
     Analog_Clock.dHours := dh;
     Analog_Clock.delta := Analog_Clock.delta c;
     Analog_Clock.T := Analog_Clock.T c |}.

Definition Clock_with_offsets (c : proctor_clock.Clock) (dh dm : Z)
  : proctor_clock.Clock :=
  {| proctor_clock.Clock_world := proctor_clock.Clock_world c;
     proctor_clock.show_image := proctor_clock.show_image c;
     proctor_clock.bgcolor := proctor_clock.bgcolor c;
     proctor_clock.timecolor := proctor_clock.timecolor c;
     proctor_clock.circlecolor := proctor_clock.circlecolor c;
     proctor_clock.secondcolor := proctor_clock.secondcolor c;
     proctor_clock.circlesize := proctor_clock.circlesize c;
     proctor_clock._all := proctor_clock._all c;
     proctor_clock.pad := proctor_clock.pad c;
     proctor_clock.d_minutes := dm;
     proctor_clock.d_hours := dh;
     proctor_clock.delta := proctor_clock.delta c;
     proctor_clock.my_mapper := proctor_clock.my_mapper c |}.

(** A clock with its padding and its mapper replaced and every other
    attribute kept. *)
Definition clock_with_geometry (c : Analog_Clock.clock) (pad : R)
    (T : Analog_Clock.mapper) : Analog_Clock.clock :=
  {| Analog_Clock.clock_world := Analog_Clock.clock_world c;
     Analog_Clock.showImage := Analog_Clock.showImage c;
     Analog_Clock.bgcolor := Analog_Clock.bgcolor c;
     Analog_Clock.timecolor := Analog_Clock.timecolor c;
     Analog_Clock.circlecolor := Analog_Clock.circlecolor c;
     Analog_Clock.circlesize := Analog_Clock.circlesize c;
     Analog_Clock._ALL := Analog_Clock._ALL c;
     Analog_Clock.pad := pad;
     Analog_Clock.dMinutes := Analog_Clock.dMinutes c;
     Analog_Clock.dHours := Analog_Clock.dHours c;
     Analog_Clock.delta := Analog_Clock.delta c;
     Analog_Clock.T := T |}.

(** A clock with its image flag replaced and every other attribute kept. *)
Definition clock_with_image (c : Analog_Clock.clock) (image : bool)
  : Analog_Clock.clock :=
  {| Analog_Clock.clock_world := Analog_Clock.clock_world c;
     Analog_Clock.showImage := image;
     Analog_Clock.bgcolor := Analog_Clock.bgcolor c;
     Analog_Clock.timecolor := Analog_Clock.timecolor c;
     Analog_Clock.circlecolor := Analog_Clock.circlecolor c;
     Analog_Clock.circlesize := Analog_Clock.circlesize c;
     Analog_Clock._ALL := Analog_Clock._ALL c;
     Analog_Clock.pad := Analog_Clock.pad c;
     Analog_Clock.dMinutes := Analog_Clock.dMinutes c;
     Analog_Clock.dHours := Analog_Clock.dHours c;
     Analog_Clock.delta := Analog_Clock.delta c;
     Analog_Clock.T := Analog_Clock.T c |}.

(** The number that two decimal digits write. *)
Definition two_digits (a b : ascii) : Z :=
  (10 * (Z.of_N (N_of_ascii a) - 48) + (Z.of_N (N_of_ascii b) - 48))%Z.

(** The hour, minute and second that a title of the form [ab:cd:ef]
    writes. *)
Definition hms_of_title (t : string) : option (Z * Z * Z) :=
  match t with
  | String a (String b (String ":" (String c (String d (String ":"
      (String e (String f EmptyString))))))) =>
      Some (two_digits a b, two_digits c d, two_digits e f)
  | _ => None
  end.

(** The colour that [set_colors] gives the second hand. *)
Definition second_of (image : bool) : string :=
  if image then "red" else "#ff0000".

(** The mapper that [resize] builds for a canvas of [width] by [height]
    pixels under the clock's world: factor [7/16] of the smaller side,
    offsets in the middle of the canvas. *)
Definition mapper_of_canvas (width height : Z) : Analog_Clock.mapper :=
  let side := IZR (py_min_int width height) in
  {| Analog_Clock.world := (-1, -1, 1, 1);
     Analog_Clock.viewport :=
       (side / 16, side / 16, IZR width - side / 16, IZR height - side / 16);
     Analog_Clock.f := 7 * side / 16;
     Analog_Clock.c_1 := IZR width / 2;
     Analog_Clock.c_2 := IZR height / 2 |}.

(** The time of day that a clock shows when nothing is added to it: the
    system time less the time zone, the hour on a dial of twelve. *)
Definition unadjusted_hms (delta : Z) (now : datetime) : Z * Z * Z :=
  let '(h, m, s) := timetuple_hms (now - timedelta_hours delta)%Z in
  ((h mod 12)%Z, m, s).

(** The hour fields that a title can start with. *)
Definition hour_fields : list string :=
  ["00"; "01"; "02"; "03"; "04"; "05"; "06"; "07"; "08"; "09"; "10"; "11"]
  %string.

(** Two calls that are the same but for the fill colour of a line. *)
Definition same_but_fill (a b : tk_call) : Prop :=
  a = b \/
  exists xy fill_a fill_b tag width arrow,
    a = canvas_create_line xy fill_a tag width arrow /\
    b = canvas_create_line xy fill_b tag width arrow.

(** Two calls that are the same, or two lines between the same points and
    under the same tag. *)
Definition same_place (a b : tk_call) : Prop :=
  a = b \/
  exists xy fill_a fill_b tag width_a width_b arrow_a arrow_b,
    a = canvas_create_line xy fill_a tag width_a arrow_a /\
    b = canvas_create_line xy fill_b tag width_b arrow_b.

(** What [__init__] assigns and no method changes: the world, the size of
    the circles and the tag of the hands; and the colours are those that
    [setColors] gives for the image flag. *)
Definition built (c : Analog_Clock.clock) : Prop :=
  Analog_Clock.clock_world c = (-1, -1, 1, 1) /\
  Analog_Clock.circlesize c = 0.09 /\
  Analog_Clock._ALL c = "handles"%string /\
  Analog_Clock.setColors c = c.


(** A point of a canvas of [w] by [h] pixels. *)
Definition on_canvas (w h : R) (P : R * R) : Prop :=
  0 <= fst P <= w /\ 0 <= snd P <= h.

(** A call whose coordinates, if it has any, are points of the canvas. *)
Definition drawn_on_canvas (w h : R) (c : tk_call) : Prop :=
  match c with
  | canvas_create_line (P, Q) _ _ _ _ => on_canvas w h P /\ on_canvas w h Q
  | canvas_create_oval (P, Q) _ => on_canvas w h P /\ on_canvas w h Q
  | root_title _ | canvas_delete _ => True
  end.

Definition laid_on_canvas (w h : R) (c : resize_call) : Prop :=
  match c with
  | redraw_call c => drawn_on_canvas w h c
  | canvas_create_rectangle (P, Q) _ => on_canvas w h P /\ on_canvas w h Q
  | canvas_create_image x y _ => on_canvas w h (x, y)
  end.

(** The number of presses of a key in a run. *)
Definition times_pressed (k : key) (ks : list (key * datetime)) : Z :=
  Z.of_nat
    (List.length
       (filter (fun p => match fst p, k with
                         | KeyPress_f, KeyPress_f
                         | KeyPress_v, KeyPress_v
                         | KeyPress_F, KeyPress_F
                         | KeyPress_V, KeyPress_V
                         | space, space => true
                         | _, _ => false
                         end) ks)).

(** The square of the distance between two points. *)
Definition dist2 (P Q : R * R) : R :=
  (fst Q - fst P) * (fst Q - fst P) + (snd Q - snd P) * (snd Q - snd P).

(** A rectangle with no width or no height. *)
Definition degenerate (r : rect) : Prop :=
  let '(x_min, y_min, x_max, y_max) := r in
  x_max = x_min \/ y_max = y_min.

(** An angle given in degrees, in the radians that [cos] and [sin] take. *)
Definition deg (d : R) : R := d * PI / 180.

(** * Properties *)

(** ** Arithmetic of the embedding *)

Lemma float_div_nonzero (a b : R) : b <> 0 -> float_div a b = inr (a / b).
Proof.
  intros Hb. unfold float_div.
  destruct (Req_dec_T b 0) as [E | _]; [contradiction | reflexivity].
Qed.

Lemma float_div_zero (a b : R) :
  b = 0 -> float_div a b = inl ZeroDivisionError.
Proof.
  intros Hb. unfold float_div.
  destruct (Req_dec_T b 0) as [_ | N]; [reflexivity | contradiction].
Qed.

Lemma py_min_Rmin (a b : R) : py_min a b = Rmin a b.
Proof.
  unfold py_min, Rmin.
  destruct (Rlt_dec b a), (Rle_dec a b); lra.
Qed.

Lemma quotient_pos (a b : R) : 0 < a -> 0 < b -> 0 < a / b.
Proof. intros Ha Hb. apply Rdiv_lt_0_compat; assumption. Qed.

(** ** The mapper *)

(** [Mapper] is [mapper] under other names. *)
Lemma Mapper_init_to_Mapper (w v : rect) :
  proctor_clock.Mapper_init w v =
  (m <- Analog_Clock.mapper_init w v ;; inr (to_Mapper m)).
Proof.
  destruct w as [[[x_min y_min] x_max] y_max].
  destruct v as [[[X_min Y_min] X_max] Y_max].
  unfold proctor_clock.Mapper_init, Analog_Clock.mapper_init.
  destruct (float_div (X_max - X_min) (x_max - x_min)) as [e | f_x];
    [reflexivity |].
  destruct (float_div (Y_max - Y_min) (y_max - y_min)) as [e | f_y];
    reflexivity.
Qed.

Lemma window_to_viewport_to_Mapper (m : Analog_Clock.mapper)
    (x1 y1 x2 y2 : R) :
  proctor_clock.window_to_viewport (to_Mapper m) x1 y1 x2 y2 =
  Analog_Clock.windowToViewport m x1 y1 x2 y2.
Proof. reflexivity. Qed.

(** Construction succeeds as soon as the world rectangle has a width and a
    height, and then stores these attributes. *)
Lemma mapper_init_value (x_min y_min x_max y_max X_min Y_min X_max Y_max : R) :
  x_max <> x_min -> y_max <> y_min ->
  Analog_Clock.mapper_init (x_min, y_min, x_max, y_max)
                           (X_min, Y_min, X_max, Y_max) =
  let f := py_min ((X_max - X_min) / (x_max - x_min))
                  ((Y_max - Y_min) / (y_max - y_min)) in
  inr {| Analog_Clock.world := (x_min, y_min, x_max, y_max);
         Analog_Clock.viewport := (X_min, Y_min, X_max, Y_max);
         Analog_Clock.f := f;
         Analog_Clock.c_1 := 0.5 * (X_min + X_max) - f * (0.5 * (x_min + x_max));
         Analog_Clock.c_2 := 0.5 * (Y_min + Y_max) - f * (0.5 * (y_min + y_max)) |}.
Proof.
  intros Hx Hy. unfold Analog_Clock.mapper_init.
  rewrite (float_div_nonzero _ (x_max - x_min)) by lra.
  rewrite (float_div_nonzero _ (y_max - y_min)) by lra.
  reflexivity.
Qed.

(** Construction raises exactly when the world rectangle is degenerate. *)
Lemma mapper_init_raises (w v : rect) :
  (exists e, Analog_Clock.mapper_init w v = inl e) <-> degenerate w.
Proof.
  destruct w as [[[x_min y_min] x_max] y_max].
  destruct v as [[[X_min Y_min] X_max] Y_max].
  unfold degenerate. split.
  - intros [e He].
    destruct (Req_dec_T x_max x_min) as [Ex | Nx]; [now left |].
    destruct (Req_dec_T y_max y_min) as [Ey | Ny]; [now right |].
    rewrite mapper_init_value in He by assumption. discriminate.
  - intros Hd. exists ZeroDivisionError. unfold Analog_Clock.mapper_init.
    destruct (Req_dec_T x_max x_min) as [Ex | Nx].
    + rewrite (float_div_zero _ (x_max - x_min)) by lra. reflexivity.
    + rewrite (float_div_nonzero _ (x_max - x_min)) by lra.
      destruct Hd as [Ex | Ey]; [contradiction |].
      rewrite (float_div_zero _ (y_max - y_min)) by lra. reflexivity.
Qed.

(** On a world rectangle that has a width and a height, both constructors
    return, and return the same attributes. *)
Lemma both_init (x_min y_min x_max y_max X_min Y_min X_max Y_max : R) :
  x_max <> x_min -> y_max <> y_min ->
  exists m,
    Analog_Clock.mapper_init (x_min, y_min, x_max, y_max)
                             (X_min, Y_min, X_max, Y_max) = inr m /\
    proctor_clock.Mapper_init (x_min, y_min, x_max, y_max)
                              (X_min, Y_min, X_max, Y_max) =
      inr (to_Mapper m) /\
    Analog_Clock.f m = Rmin ((X_max - X_min) / (x_max - x_min))
                            ((Y_max - Y_min) / (y_max - y_min)) /\
    Analog_Clock.c_1 m =
      (X_min + X_max) / 2 - Analog_Clock.f m * ((x_min + x_max) / 2) /\
    Analog_Clock.c_2 m =
      (Y_min + Y_max) / 2 - Analog_Clock.f m * ((y_min + y_max) / 2).
Proof.
  intros Hx Hy. eexists. split; [| split].
  - apply mapper_init_value; assumption.
  - rewrite Mapper_init_to_Mapper, mapper_init_value by assumption.
    reflexivity.
  - cbn. rewrite py_min_Rmin. repeat split; lra.
Qed.

(** The scale factor is positive when all four extents are. *)
Lemma Rmin_quotients_pos (a b c d : R) :
  0 < a -> 0 < b -> 0 < c -> 0 < d -> 0 < Rmin (a / b) (c / d).
Proof.
  intros Ha Hb Hc Hd. apply Rmin_glb_lt; apply quotient_pos; assumption.
Qed.

(** Evaluation of [min] on numerals. *)
Ltac eval_Rmin :=
  repeat match goal with
         | |- context [Rmin ?a ?b] =>
             unfold Rmin; destruct (Rle_dec a b); try lra
         | H : context [Rmin ?a ?b] |- _ =>
             unfold Rmin in H; destruct (Rle_dec a b); try lra
         end.

(** Equality of points, coordinate by coordinate. *)
Ltac point := apply injective_projections; cbn [fst snd]; try lra.

Section MapperOnProperRectangles.

Variables x_min y_min x_max y_max X_min Y_min X_max Y_max : R.
Hypothesis Hx : x_min < x_max.
Hypothesis Hy : y_min < y_max.
Hypothesis HX : X_min < X_max.
Hypothesis HY : Y_min < Y_max.

Let world : rect := (x_min, y_min, x_max, y_max).
Let viewport : rect := (X_min, Y_min, X_max, Y_max).
Let f_x : R := (X_max - X_min) / (x_max - x_min).
Let f_y : R := (Y_max - Y_min) / (y_max - y_min).

(** C1.  On rectangles with [min < max] on both axes, both constructors
    return a mapper whose factor is [min(f_x, f_y)], the quotients of the
    viewport's extents by the world's, and whose offsets depend on the two
    rectangles only; the mapper sends a world point [(x, y)] to
    [(f * x + c_1, - f * y + c_2)].  The image of a point is therefore a
    function of the two rectangles and the point, which is all that an
    embedding as functions leaves to say of determinism. *)
Theorem C1_mapper_formula (x y : R) :
  exists m M,
    Analog_Clock.mapper_init world viewport = inr m /\
    proctor_clock.Mapper_init world viewport = inr M /\
    Analog_Clock.f m = Rmin f_x f_y /\
    proctor_clock.factor M = Rmin f_x f_y /\
    Analog_Clock.__windowToViewport m x y =
      (Rmin f_x f_y * x + Analog_Clock.c_1 m,
       - Rmin f_x f_y * y + Analog_Clock.c_2 m) /\
    proctor_clock._window_to_viewport M x y =
      (Rmin f_x f_y * x + proctor_clock.c_1 M,
       - Rmin f_x f_y * y + proctor_clock.c_2 M) /\
    Analog_Clock.c_1 m =
      (X_min + X_max) / 2 - Rmin f_x f_y * ((x_min + x_max) / 2) /\
    Analog_Clock.c_2 m =
      (Y_min + Y_max) / 2 - Rmin f_x f_y * ((y_min + y_max) / 2) /\
    proctor_clock.c_1 M = Analog_Clock.c_1 m /\
    proctor_clock.c_2 M = Analog_Clock.c_2 m.
Proof.
  assert (HX' := HX). assert (HY' := HY).
  destruct (both_init x_min y_min x_max y_max X_min Y_min X_max Y_max)
    as (m & Hm & HM & Hf & Hc1 & Hc2); [lra | lra |].
  exists m, (to_Mapper m). fold f_x f_y in Hf.
  split; [exact Hm |]. split; [exact HM |].
  split; [exact Hf |]. split; [exact Hf |].
  split; [| split].
  - unfold Analog_Clock.__windowToViewport. rewrite <- Hf. point.
  - unfold proctor_clock._window_to_viewport. cbn. rewrite <- Hf. point.
  - rewrite <- Hf. repeat split; assumption.
Qed.

(** C2, as the code has it.  The mapper sends the abscissa of the world's
    centre to the abscissa of the viewport's centre; it sends the world's
    centre to the viewport's centre when the world is centred on the
    x-axis ([y_min + y_max = 0]); and it sends the world point [(0, 0)] to
    the viewport's centre when the world is centred on the origin, as the
    clock's world [(-1, -1, 1, 1)] is. *)
Theorem C2_center_to_center :
  exists m M,
    Analog_Clock.mapper_init world viewport = inr m /\
    proctor_clock.Mapper_init world viewport = inr M /\
    let x_c := (x_min + x_max) / 2 in
    let y_c := (y_min + y_max) / 2 in
    let X_c := (X_min + X_max) / 2 in
    let Y_c := (Y_min + Y_max) / 2 in
    fst (Analog_Clock.__windowToViewport m x_c y_c) = X_c /\
    fst (proctor_clock._window_to_viewport M x_c y_c) = X_c /\
    (y_min + y_max = 0 ->
     Analog_Clock.__windowToViewport m x_c y_c = (X_c, Y_c) /\
     proctor_clock._window_to_viewport M x_c y_c = (X_c, Y_c)) /\
    (x_min + x_max = 0 -> y_min + y_max = 0 ->
     Analog_Clock.__windowToViewport m 0 0 = (X_c, Y_c) /\
     proctor_clock._window_to_viewport M 0 0 = (X_c, Y_c)).
Proof.
  assert (HX' := HX). assert (HY' := HY).
  destruct (both_init x_min y_min x_max y_max X_min Y_min X_max Y_max)
    as (m & Hm & HM & _ & Hc1 & Hc2); [lra | lra |].
  exists m, (to_Mapper m).
  split; [exact Hm |]. split; [exact HM |].
  unfold Analog_Clock.__windowToViewport, proctor_clock._window_to_viewport.
  cbn -[Rdiv]. rewrite Hc1, Hc2.
  set (f := Analog_Clock.f m).
  split; [lra |]. split; [lra |]. split.
  - intros H0. replace ((y_min + y_max) / 2) with 0 by lra.
    split; point.
  - intros Hx0 Hy0.
    replace ((y_min + y_max) / 2) with 0 by lra.
    replace ((x_min + x_max) / 2) with 0 by lra.
    split; point.
Qed.

(** C4.  On rectangles with positive extents the factor is positive, the
    map is affine with a linear part [(f, - f)] that does not vanish, and
    the map [g (X, Y) = ((X - c_1) / f, (c_2 - Y) / f)] undoes it, on either
    side. *)
Theorem C4_affine_invertible :
  exists m M,
    Analog_Clock.mapper_init world viewport = inr m /\
    proctor_clock.Mapper_init world viewport = inr M /\
    0 < Analog_Clock.f m /\
    (forall x y,
       Analog_Clock.__windowToViewport m x y =
         (Analog_Clock.f m * x + Analog_Clock.c_1 m,
          - Analog_Clock.f m * y + Analog_Clock.c_2 m)) /\
    (forall x y,
       proctor_clock._window_to_viewport M x y =
       Analog_Clock.__windowToViewport m x y) /\
    exists g : R * R -> R * R,
      (forall x y, g (Analog_Clock.__windowToViewport m x y) = (x, y)) /\
      (forall x y, g (proctor_clock._window_to_viewport M x y) = (x, y)) /\
      (forall X Y,
         Analog_Clock.__windowToViewport m (fst (g (X, Y))) (snd (g (X, Y)))
         = (X, Y)).
Proof.
  destruct (both_init x_min y_min x_max y_max X_min Y_min X_max Y_max)
    as (m & Hm & HM & Hf & _); [lra | lra |].
  assert (Hpos : 0 < Analog_Clock.f m).
  { rewrite Hf. apply Rmin_quotients_pos; lra. }
  exists m, (to_Mapper m).
  split; [exact Hm |]. split; [exact HM |]. split; [exact Hpos |].
  split; [| split].
  - intros x y. unfold Analog_Clock.__windowToViewport. point.
  - reflexivity.
  - exists (fun P => ((fst P - Analog_Clock.c_1 m) / Analog_Clock.f m,
                      (Analog_Clock.c_2 m - snd P) / Analog_Clock.f m)).
    unfold proctor_clock._window_to_viewport,
      Analog_Clock.__windowToViewport.
    cbn [fst snd to_Mapper proctor_clock.factor proctor_clock.c_1
         proctor_clock.c_2].
    repeat split; intros; apply injective_projections; cbn [fst snd];
      field; lra.
Qed.

End MapperOnProperRectangles.

(** Evaluation of the two constructors on rectangles given by numerals. *)
Ltac eval_init :=
  rewrite ?Mapper_init_to_Mapper;
  rewrite mapper_init_value by lra;
  cbn [bind].

Ltac eval_map :=
  unfold proctor_clock._window_to_viewport, Analog_Clock.__windowToViewport;
  cbn [to_Mapper proctor_clock.factor proctor_clock.c_1 proctor_clock.c_2
       Analog_Clock.f Analog_Clock.c_1 Analog_Clock.c_2];
  rewrite ?py_min_Rmin; eval_Rmin.

Lemma C1_mapper_formula_witness :
  exists m M,
    Analog_Clock.mapper_init (-1, -1, 1, 1) (0, 0, 400, 300) = inr m /\
    proctor_clock.Mapper_init (-1, -1, 1, 1) (0, 0, 400, 300) = inr M /\
    Analog_Clock.f m = Rmin ((400 - 0) / (1 - -1)) ((300 - 0) / (1 - -1)) /\
    proctor_clock.factor M =
      Rmin ((400 - 0) / (1 - -1)) ((300 - 0) / (1 - -1)) /\
    Analog_Clock.__windowToViewport m 1 0 =
      (Rmin ((400 - 0) / (1 - -1)) ((300 - 0) / (1 - -1)) * 1
       + Analog_Clock.c_1 m,
       - Rmin ((400 - 0) / (1 - -1)) ((300 - 0) / (1 - -1)) * 0
       + Analog_Clock.c_2 m) /\
    proctor_clock._window_to_viewport M 1 0 =
      (Rmin ((400 - 0) / (1 - -1)) ((300 - 0) / (1 - -1)) * 1
       + proctor_clock.c_1 M,
       - Rmin ((400 - 0) / (1 - -1)) ((300 - 0) / (1 - -1)) * 0
       + proctor_clock.c_2 M) /\
    Analog_Clock.c_1 m =
      (0 + 400) / 2
      - Rmin ((400 - 0) / (1 - -1)) ((300 - 0) / (1 - -1)) * ((-1 + 1) / 2) /\
    Analog_Clock.c_2 m =
      (0 + 300) / 2
      - Rmin ((400 - 0) / (1 - -1)) ((300 - 0) / (1 - -1)) * ((-1 + 1) / 2) /\
    proctor_clock.c_1 M = Analog_Clock.c_1 m /\
    proctor_clock.c_2 M = Analog_Clock.c_2 m.
Proof.
  apply (C1_mapper_formula (-1) (-1) 1 1 0 0 400 300); lra.
Defined.

(** The world [(0, 0, 2, 2)] in the viewport [(0, 0, 400, 400)]: the centre
    [(1, 1)] of the world lands on [(200, -200)], outside the viewport, and
    the world point [(0, 0)] on the corner [(0, 0)]; the centre of the
    viewport is [(200, 200)]. *)
Lemma C2_counterexample :
  exists m M,
    Analog_Clock.mapper_init (0, 0, 2, 2) (0, 0, 400, 400) = inr m /\
    proctor_clock.Mapper_init (0, 0, 2, 2) (0, 0, 400, 400) = inr M /\
    Analog_Clock.__windowToViewport m ((0 + 2) / 2) ((0 + 2) / 2) =
      (200, -200) /\
    proctor_clock._window_to_viewport M ((0 + 2) / 2) ((0 + 2) / 2) =
      (200, -200) /\
    Analog_Clock.__windowToViewport m ((0 + 2) / 2) ((0 + 2) / 2) <>
      ((0 + 400) / 2, (0 + 400) / 2) /\
    proctor_clock._window_to_viewport M ((0 + 2) / 2) ((0 + 2) / 2) <>
      ((0 + 400) / 2, (0 + 400) / 2) /\
    Analog_Clock.__windowToViewport m 0 0 = (0, 0) /\
    proctor_clock._window_to_viewport M 0 0 = (0, 0) /\
    Analog_Clock.__windowToViewport m 0 0 <> ((0 + 400) / 2, (0 + 400) / 2) /\
    proctor_clock._window_to_viewport M 0 0 <> ((0 + 400) / 2, (0 + 400) / 2).
Proof.
  eexists. eexists. split; [eval_init; reflexivity |].
  split; [eval_init; reflexivity |].
  eval_map;
    (repeat split;
     try (intros E; apply (f_equal snd) in E; cbn [snd] in E; lra);
     point).
Qed.

Lemma C2_center_to_center_witness :
  exists m M,
    Analog_Clock.mapper_init (-1, -1, 1, 1) (25, 25, 375, 375) = inr m /\
    proctor_clock.Mapper_init (-1, -1, 1, 1) (25, 25, 375, 375) = inr M /\
    Analog_Clock.__windowToViewport m 0 0 = (200, 200) /\
    proctor_clock._window_to_viewport M 0 0 = (200, 200).
Proof.
  destruct (C2_center_to_center (-1) (-1) 1 1 25 25 375 375)
    as (m & M & Hm & HM & _ & _ & _ & H0); try lra.
  exists m, M. split; [exact Hm |]. split; [exact HM |].
  destruct H0 as [Ha Hp]; try lra.
  rewrite Ha, Hp. split; point.
Defined.

(** A viewport without width under the clock's world: both constructors
    return, and the mapper they return has factor [0], so that it sends
    every world point to the one point [(0, 200)]. *)
Lemma C3_counterexample :
  degenerate (0, 0, 0, 400) /\
  exists m M,
    Analog_Clock.mapper_init (-1, -1, 1, 1) (0, 0, 0, 400) = inr m /\
    proctor_clock.Mapper_init (-1, -1, 1, 1) (0, 0, 0, 400) = inr M /\
    Analog_Clock.f m = 0 /\
    proctor_clock.factor M = 0 /\
    (forall x y, Analog_Clock.__windowToViewport m x y = (0, 200)) /\
    (forall x y, proctor_clock._window_to_viewport M x y = (0, 200)).
Proof.
  split; [left; reflexivity |].
  eexists. eexists. split; [eval_init; reflexivity |].
  split; [eval_init; reflexivity |].
  cbn [to_Mapper proctor_clock.factor Analog_Clock.f].
  rewrite ?py_min_Rmin.
  split; [eval_Rmin |]. split; [eval_Rmin |].
  split; intros x y; eval_map; point.
Qed.

(** C3, as the code has it.  Construction raises exactly when the world
    rectangle has no width or no height, and what it raises is Python's
    [ZeroDivisionError]; on any other world rectangle both constructors
    return a mapper, whatever the viewport, and a viewport without width or
    height gives a factor that is not positive, and is [0] when neither
    quotient of extents is negative. *)
Theorem C3_degenerate_rectangles
    (x_min y_min x_max y_max X_min Y_min X_max Y_max : R) :
  let world := (x_min, y_min, x_max, y_max) in
  let viewport := (X_min, Y_min, X_max, Y_max) in
  (degenerate world ->
   Analog_Clock.mapper_init world viewport = inl ZeroDivisionError /\
   proctor_clock.Mapper_init world viewport = inl ZeroDivisionError) /\
  (~ degenerate world ->
   exists m M,
     Analog_Clock.mapper_init world viewport = inr m /\
     proctor_clock.Mapper_init world viewport = inr M /\
     proctor_clock.factor M = Analog_Clock.f m /\
     (degenerate viewport ->
      Analog_Clock.f m <= 0 /\
      (0 <= (X_max - X_min) / (x_max - x_min) ->
       0 <= (Y_max - Y_min) / (y_max - y_min) ->
       Analog_Clock.f m = 0))).
Proof.
  intros world viewport. split.
  - intros Hd.
    destruct (proj2 (mapper_init_raises world viewport) Hd) as [[] He].
    split; [exact He |].
    rewrite Mapper_init_to_Mapper, He. reflexivity.
  - intros Hn.
    assert (Hx : x_max <> x_min) by (intros E; apply Hn; left; exact E).
    assert (Hy : y_max <> y_min) by (intros E; apply Hn; right; exact E).
    destruct (both_init x_min y_min x_max y_max X_min Y_min X_max Y_max Hx Hy)
      as (m & Hm & HM & Hf & _).
    exists m, (to_Mapper m).
    split; [exact Hm |]. split; [exact HM |]. split; [reflexivity |].
    intros Hv. rewrite Hf.
    assert (H0 : (X_max - X_min) / (x_max - x_min) = 0 \/
                 (Y_max - Y_min) / (y_max - y_min) = 0).
    { destruct Hv as [E | E]; [left | right]; rewrite E;
        unfold Rdiv; rewrite Rminus_diag; apply Rmult_0_l. }
    split.
    + destruct H0 as [E | E]; rewrite E;
        [apply Rmin_l | apply Rmin_r].
    + intros Hfx Hfy.
      destruct H0 as [E | E]; rewrite E in *;
        [apply Rmin_left | apply Rmin_right]; assumption.
Qed.

Lemma C3_degenerate_rectangles_witness :
  (Analog_Clock.mapper_init (-1, -1, -1, 1) (0, 0, 400, 400) =
     inl ZeroDivisionError /\
   proctor_clock.Mapper_init (-1, -1, -1, 1) (0, 0, 400, 400) =
     inl ZeroDivisionError) /\
  exists m M,
    Analog_Clock.mapper_init (-1, -1, 1, 1) (0, 0, 400, 0) = inr m /\
    proctor_clock.Mapper_init (-1, -1, 1, 1) (0, 0, 400, 0) = inr M /\
    Analog_Clock.f m = 0.
Proof.
  split.
  - apply (C3_degenerate_rectangles (-1) (-1) (-1) 1 0 0 400 400).
    left. reflexivity.
  - destruct (C3_degenerate_rectangles (-1) (-1) 1 1 0 0 400 0)
      as [_ H].
    destruct H as (m & M & Hm & HM & _ & Hv).
    + intros [E | E]; lra.
    + exists m, M. split; [exact Hm |]. split; [exact HM |].
      apply Hv; [right; reflexivity | lra | lra].
Defined.

(** The clock's world in the viewport [(0, 0, 400, 400)]: the factor is
    [200], the number of pixels to a world unit, and not [1]. *)
Lemma C5_counterexample :
  exists m M,
    Analog_Clock.mapper_init (-1, -1, 1, 1) (0, 0, 400, 400) = inr m /\
    proctor_clock.Mapper_init (-1, -1, 1, 1) (0, 0, 400, 400) = inr M /\
    Analog_Clock.f m <> 1.0 /\
    proctor_clock.factor M <> 1.0.
Proof.
  eexists. eexists. split; [eval_init; reflexivity |].
  split; [eval_init; reflexivity |].
  cbn [to_Mapper proctor_clock.factor Analog_Clock.f].
  rewrite py_min_Rmin. split; eval_Rmin.
Qed.

(** C5, as the code has it.  On the world [(-1, -1, 1, 1)] and the viewport
    [(0, 0, 400, 400)] both constructors return a mapper with factor [200.0]
    and offsets [(200, 200)], and that mapper sends the world point [(1, 0)]
    to the screen point [(400, 200)]. *)
Theorem C5_clock_world_400 :
  exists m M,
    Analog_Clock.mapper_init (-1, -1, 1, 1) (0, 0, 400, 400) = inr m /\
    proctor_clock.Mapper_init (-1, -1, 1, 1) (0, 0, 400, 400) = inr M /\
    Analog_Clock.f m = 200.0 /\
    proctor_clock.factor M = 200.0 /\
    Analog_Clock.c_1 m = 200 /\ Analog_Clock.c_2 m = 200 /\
    proctor_clock.c_1 M = 200 /\ proctor_clock.c_2 M = 200 /\
    Analog_Clock.__windowToViewport m 1 0 = (400, 200) /\
    proctor_clock._window_to_viewport M 1 0 = (400, 200).
Proof.
  eexists. eexists. split; [eval_init; reflexivity |].
  split; [eval_init; reflexivity |].
  eval_map; repeat split; try lra; point.
Qed.

(** ** The displayed time *)

Lemma timetuple_hms_range (t : datetime) (h m s : Z) :
  timetuple_hms t = (h, m, s) ->
  (0 <= h < 24 /\ 0 <= m < 60 /\ 0 <= s < 60)%Z.
Proof.
  unfold timetuple_hms. intros E. injection E as <- <- <-.
  repeat split; apply Z.mod_pos_bound; lia.
Qed.

Lemma shown_hms_range (c : Analog_Clock.clock) (now : datetime) (h m s : Z) :
  Analog_Clock.shown_hms c now = (h, m, s) ->
  (0 <= h < 12 /\ 0 <= m < 60 /\ 0 <= s < 60)%Z.
Proof.
  unfold Analog_Clock.shown_hms.
  destruct (timetuple_hms _) as [[h0 m0] s0] eqn:Et.
  apply timetuple_hms_range in Et.
  intros E. injection E as <- <- <-.
  repeat split; try apply Z.mod_pos_bound; lia.
Qed.

(** The two files show the same time on the same attributes. *)
Lemma shown_hms_to_Clock (second : string) (c : Analog_Clock.clock)
    (now : datetime) :
  proctor_clock.shown_hms (to_Clock second c) now =
  Analog_Clock.shown_hms c now.
Proof. reflexivity. Qed.

(** Every [Clock] is a [clock] with a colour for the second hand. *)
Lemma Clock_is_to_Clock (p : proctor_clock.Clock) :
  exists c, p = to_Clock (proctor_clock.secondcolor p) c.
Proof.
  destruct p as [w si bg tc cc sc cs al pd dm dh dl [mw mv mf m1 m2]].
  exists {| Analog_Clock.clock_world := w; Analog_Clock.showImage := si;
            Analog_Clock.bgcolor := bg; Analog_Clock.timecolor := tc;
            Analog_Clock.circlecolor := cc; Analog_Clock.circlesize := cs;
            Analog_Clock._ALL := al; Analog_Clock.pad := pd;
            Analog_Clock.dMinutes := dm; Analog_Clock.dHours := dh;
            Analog_Clock.delta := dl;
            Analog_Clock.T :=
              {| Analog_Clock.world := mw; Analog_Clock.viewport := mv;
                 Analog_Clock.f := mf; Analog_Clock.c_1 := m1;
                 Analog_Clock.c_2 := m2 |} |}.
  reflexivity.
Qed.

Lemma Shown_hms_range (p : proctor_clock.Clock) (now : datetime) (h m s : Z) :
  proctor_clock.shown_hms p now = (h, m, s) ->
  (0 <= h < 12 /\ 0 <= m < 60 /\ 0 <= s < 60)%Z.
Proof.
  destruct (Clock_is_to_Clock p) as [c ->].
  rewrite shown_hms_to_Clock. apply shown_hms_range.
Qed.

(** Every time of day of the dial is shown at some time. *)
Lemma any_time_is_shown (c : Analog_Clock.clock) (h m s : Z) :
  (0 <= h < 12)%Z -> (0 <= m < 60)%Z -> (0 <= s < 60)%Z ->
  Analog_Clock.shown_hms c
    (3600 * ((h - Analog_Clock.dHours c) mod 12)
     + 60 * ((m - Analog_Clock.dMinutes c) mod 60) + s
     + timedelta_hours (Analog_Clock.delta c))%Z = (h, m, s).
Proof.
  intros Hh Hm Hs.
  unfold Analog_Clock.shown_hms, timetuple_hms, timedelta_hours.
  set (dH := Analog_Clock.dHours c). set (dM := Analog_Clock.dMinutes c).
  set (d := Analog_Clock.delta c).
  assert (HH := Z.mod_pos_bound (h - dH) 12 ltac:(lia)).
  assert (HM := Z.mod_pos_bound (m - dM) 60 ltac:(lia)).
  set (H := ((h - dH) mod 12)%Z) in *. set (M := ((m - dM) mod 60)%Z) in *.
  replace (3600 * H + 60 * M + s + 3600 * d - 3600 * d)%Z
    with (3600 * H + 60 * M + s)%Z by lia.
  assert (E1 : ((3600 * H + 60 * M + s) / 3600 = H)%Z).
  { symmetry. apply (Z.div_unique _ _ _ (60 * M + s)); lia. }
  assert (E2 : ((3600 * H + 60 * M + s) / 60 = 60 * H + M)%Z).
  { symmetry. apply (Z.div_unique _ _ _ s); lia. }
  assert (E3 : ((3600 * H + 60 * M + s) mod 60 = s)%Z).
  { symmetry. apply (Z.mod_unique _ _ (60 * H + M)); lia. }
  rewrite E1, E2, E3.
  rewrite (Z.mod_small H 24) by lia.
  replace ((60 * H + M) mod 60)%Z with M
    by (apply (Z.mod_unique _ _ H); lia).
  subst H M.
  rewrite Zplus_mod_idemp_l, Zplus_mod_idemp_l.
  replace (h - dH + dH)%Z with h by lia.
  replace (m - dM + dM)%Z with m by lia.
  rewrite !Z.mod_small by lia. reflexivity.
Qed.

Lemma Any_time_is_shown (p : proctor_clock.Clock) (h m s : Z) :
  (0 <= h < 12)%Z -> (0 <= m < 60)%Z -> (0 <= s < 60)%Z ->
  proctor_clock.shown_hms p
    (3600 * ((h - proctor_clock.d_hours p) mod 12)
     + 60 * ((m - proctor_clock.d_minutes p) mod 60) + s
     + timedelta_hours (proctor_clock.delta p))%Z = (h, m, s).
Proof.
  intros Hh Hm Hs. destruct (Clock_is_to_Clock p) as [c ->].
  exact (any_time_is_shown c h m s Hh Hm Hs).
Qed.

(** What the time shown depends on. *)
Lemma shown_hms_with_offsets (c : Analog_Clock.clock) (dh dm : Z)
    (now : datetime) :
  Analog_Clock.shown_hms (clock_with_offsets c dh dm) now =
  let '(h, m, s) :=
    timetuple_hms (now - timedelta_hours (Analog_Clock.delta c))%Z in
  (((h + dh) mod 12)%Z, ((m + dm) mod 60)%Z, s).
Proof.
  reflexivity.
Qed.

Lemma Shown_hms_with_offsets (p : proctor_clock.Clock) (dh dm : Z)
    (now : datetime) :
  proctor_clock.shown_hms (Clock_with_offsets p dh dm) now =
  let '(h, m, s) :=
    timetuple_hms (now - timedelta_hours (proctor_clock.delta p))%Z in
  (((h + dh) mod 12)%Z, ((m + dm) mod 60)%Z, s).
Proof.
  reflexivity.
Qed.

Lemma clock_with_own_offsets (c : Analog_Clock.clock) :
  clock_with_offsets c (Analog_Clock.dHours c) (Analog_Clock.dMinutes c) = c.
Proof. destruct c. reflexivity. Qed.

Lemma Clock_with_own_offsets (p : proctor_clock.Clock) :
  Clock_with_offsets p (proctor_clock.d_hours p) (proctor_clock.d_minutes p)
  = p.
Proof. destruct p. reflexivity. Qed.

(** The hands drawn depend on the stored offsets through the time shown
    only. *)
Lemma painthms_same_time (c c' : Analog_Clock.clock) (now now' : datetime) :
  Analog_Clock.shown_hms c now = Analog_Clock.shown_hms c' now' ->
  (exists dh dm, c' = clock_with_offsets c dh dm) ->
  Analog_Clock.painthms c now = Analog_Clock.painthms c' now'.
Proof.
  intros E (dh & dm & ->). unfold Analog_Clock.painthms.
  rewrite E. reflexivity.
Qed.

Lemma paint_hms_same_time (p p' : proctor_clock.Clock) (now now' : datetime) :
  proctor_clock.shown_hms p now = proctor_clock.shown_hms p' now' ->
  (exists dh dm, p' = Clock_with_offsets p dh dm) ->
  proctor_clock.paint_hms p now = proctor_clock.paint_hms p' now'.
Proof.
  intros E (dh & dm & ->). unfold proctor_clock.paint_hms.
  rewrite E. reflexivity.
Qed.

(** ** Key presses *)

(** A key press changes the stored offsets and nothing else. *)
Lemma press_state (c : Analog_Clock.clock) (k : key) (now : datetime) :
  fst (Analog_Clock.press c k now) =
  match k with
  | KeyPress_f => clock_with_offsets c (Analog_Clock.dHours c + 0)
                    (Analog_Clock.dMinutes c + 1)
  | KeyPress_v => clock_with_offsets c (Analog_Clock.dHours c + 0)
                    (Analog_Clock.dMinutes c + -1)
  | KeyPress_F => clock_with_offsets c (Analog_Clock.dHours c + 1)
                    (Analog_Clock.dMinutes c + 0)
  | KeyPress_V => clock_with_offsets c (Analog_Clock.dHours c + -1)
                    (Analog_Clock.dMinutes c + 0)
  | space => clock_with_offsets c 0 0
  end%Z.
Proof. destruct k; reflexivity. Qed.

Lemma Press_state (p : proctor_clock.Clock) (k : key) (now : datetime) :
  fst (proctor_clock.press p k now) =
  match k with
  | KeyPress_f => Clock_with_offsets p (proctor_clock.d_hours p + 0)
                    (proctor_clock.d_minutes p + 1)
  | KeyPress_v => Clock_with_offsets p (proctor_clock.d_hours p + 0)
                    (proctor_clock.d_minutes p + -1)
  | KeyPress_F => Clock_with_offsets p (proctor_clock.d_hours p + 1)
                    (proctor_clock.d_minutes p + 0)
  | KeyPress_V => Clock_with_offsets p (proctor_clock.d_hours p + -1)
                    (proctor_clock.d_minutes p + 0)
  | space => Clock_with_offsets p 0 0
  end%Z.
Proof. destruct k; reflexivity. Qed.

Lemma presses_cons (c : Analog_Clock.clock) (k : key) (now : datetime)
    (ks : list (key * datetime)) :
  fst (Analog_Clock.presses c ((k, now) :: ks)) =
  fst (Analog_Clock.presses (fst (Analog_Clock.press c k now)) ks).
Proof.
  cbn [Analog_Clock.presses].
  destruct (Analog_Clock.press c k now) as [c1 out]. cbn [fst].
  destruct (Analog_Clock.presses c1 ks) as [c2 outs]. reflexivity.
Qed.

Lemma Presses_cons (p : proctor_clock.Clock) (k : key) (now : datetime)
    (ks : list (key * datetime)) :
  fst (proctor_clock.presses p ((k, now) :: ks)) =
  fst (proctor_clock.presses (fst (proctor_clock.press p k now)) ks).
Proof.
  cbn [proctor_clock.presses].
  destruct (proctor_clock.press p k now) as [p1 out]. cbn [fst].
  destruct (proctor_clock.presses p1 ks) as [p2 outs]. reflexivity.
Qed.

(** Whatever the keys, a run of presses changes the stored offsets only. *)
Lemma presses_state (ks : list (key * datetime)) (c : Analog_Clock.clock) :
  exists dh dm, fst (Analog_Clock.presses c ks) = clock_with_offsets c dh dm.
Proof.
  revert c. induction ks as [| [k now] ks IH]; intros c.
  - exists (Analog_Clock.dHours c), (Analog_Clock.dMinutes c).
    symmetry. apply clock_with_own_offsets.
  - rewrite presses_cons, press_state.
    destruct k;
      match goal with
      | |- context [Analog_Clock.presses (clock_with_offsets c ?h ?m) ks] =>
          destruct (IH (clock_with_offsets c h m)) as (dh & dm & ->)
      end; exists dh, dm; reflexivity.
Qed.

Lemma Presses_state (ks : list (key * datetime)) (p : proctor_clock.Clock) :
  exists dh dm,
    fst (proctor_clock.presses p ks) = Clock_with_offsets p dh dm.
Proof.
  revert p. induction ks as [| [k now] ks IH]; intros p.
  - exists (proctor_clock.d_hours p), (proctor_clock.d_minutes p).
    symmetry. apply Clock_with_own_offsets.
  - rewrite Presses_cons, Press_state.
    destruct k;
      match goal with
      | |- context [proctor_clock.presses (Clock_with_offsets p ?h ?m) ks] =>
          destruct (IH (Clock_with_offsets p h m)) as (dh & dm & ->)
      end; exists dh, dm; reflexivity.
Qed.

(** A run of presses of [f] adds its length to the stored minutes. *)
Lemma presses_f (times : list datetime) (c : Analog_Clock.clock) :
  fst (Analog_Clock.presses c (map (pair KeyPress_f) times)) =
  clock_with_offsets c (Analog_Clock.dHours c)
    (Analog_Clock.dMinutes c + Z.of_nat (List.length times)).
Proof.
  revert c. induction times as [| t times IH]; intros c.
  - cbn [map List.length Analog_Clock.presses fst Z.of_nat].
    rewrite Z.add_0_r. symmetry. apply clock_with_own_offsets.
  - cbn [map]. rewrite presses_cons, press_state, IH.
    cbn [clock_with_offsets Analog_Clock.dHours Analog_Clock.dMinutes
         Analog_Clock.clock_world Analog_Clock.showImage
         Analog_Clock.bgcolor Analog_Clock.timecolor Analog_Clock.circlecolor
         Analog_Clock.circlesize Analog_Clock._ALL Analog_Clock.pad
         Analog_Clock.delta Analog_Clock.T List.length].
    unfold clock_with_offsets. f_equal; lia.
Qed.

Lemma Presses_f (times : list datetime) (p : proctor_clock.Clock) :
  fst (proctor_clock.presses p (map (pair KeyPress_f) times)) =
  Clock_with_offsets p (proctor_clock.d_hours p)
    (proctor_clock.d_minutes p + Z.of_nat (List.length times)).
Proof.
  revert p. induction times as [| t times IH]; intros p.
  - cbn [map List.length proctor_clock.presses fst Z.of_nat].
    rewrite Z.add_0_r. symmetry. apply Clock_with_own_offsets.
  - cbn [map]. rewrite Presses_cons, Press_state, IH.
    destruct p. unfold Clock_with_offsets. cbn -[Z.add Z.of_nat].
    f_equal; lia.
Qed.

(** ** The title *)

Lemma first_two (a b : ascii) (rest : string) :
  substring 0 2 (String a (String b rest)) = String a (String b "").
Proof. destruct rest; reflexivity. Qed.

(** The title starts with the two digits of the hour shown. *)
Lemma hour_field (h m s : Z) :
  (0 <= h < 12)%Z -> In (substring 0 2 (fmt_hms h m s)) hour_fields.
Proof.
  intros Hh. unfold fmt_hms.
  generalize (":" ++ fmt_02i m ++ ":" ++ fmt_02i s)%string. intros rest.
  assert (E : (h = 0 \/ h = 1 \/ h = 2 \/ h = 3 \/ h = 4 \/ h = 5 \/ h = 6 \/
               h = 7 \/ h = 8 \/ h = 9 \/ h = 10 \/ h = 11)%Z) by lia.
  repeat destruct E as [-> | E]; try subst h;
    match goal with
    | |- context [fmt_02i ?k] =>
        let v := eval vm_compute in (fmt_02i k) in
        change (fmt_02i k) with v
    end;
    cbn [append]; rewrite first_two; unfold hour_fields; cbn [In];
    repeat (first [left; reflexivity | right]).
Qed.

Lemma hour_fields_no_12 (t : string) : In t hour_fields -> t <> "12"%string.
Proof.
  unfold hour_fields. cbn [In]. intros H.
  repeat destruct H as [<- | H]; try discriminate. contradiction.
Qed.

(** ** The stored offsets *)

Section Offsets.

Variable a : Analog_Clock.clock.
Variable p : proctor_clock.Clock.

(** C7.  Sixty presses of the key that advances the minute, handled at any
    times: the stored minutes have grown by [60] and the stored hours are
    what they were; at every time [now] the clock shows the hour, minute
    and second that it showed before the presses, and draws the same
    hands under the same title. *)
Theorem C7_sixty_minutes (times : list datetime) (now : datetime) :
  List.length times = 60%nat ->
  let a' := fst (Analog_Clock.presses a (map (pair KeyPress_f) times)) in
  let p' := fst (proctor_clock.presses p (map (pair KeyPress_f) times)) in
  (Analog_Clock.dMinutes a' = Analog_Clock.dMinutes a + 60)%Z /\
  Analog_Clock.dHours a' = Analog_Clock.dHours a /\
  Analog_Clock.shown_hms a' now = Analog_Clock.shown_hms a now /\
  Analog_Clock.painthms a' now = Analog_Clock.painthms a now /\
  (proctor_clock.d_minutes p' = proctor_clock.d_minutes p + 60)%Z /\
  proctor_clock.d_hours p' = proctor_clock.d_hours p /\
  proctor_clock.shown_hms p' now = proctor_clock.shown_hms p now /\
  proctor_clock.paint_hms p' now = proctor_clock.paint_hms p now.
Proof.
  intros Hlen a' p'. subst a' p'. rewrite presses_f, Presses_f, Hlen.
  change (Z.of_nat 60) with 60%Z.
  assert (Ea : Analog_Clock.shown_hms
                 (clock_with_offsets a (Analog_Clock.dHours a)
                    (Analog_Clock.dMinutes a + 60)) now =
               Analog_Clock.shown_hms a now).
  { unfold Analog_Clock.shown_hms.
    cbn [clock_with_offsets Analog_Clock.delta Analog_Clock.dMinutes
         Analog_Clock.dHours].
    destruct (timetuple_hms _) as [[h m] s].
    replace (m + (Analog_Clock.dMinutes a + 60))%Z
      with (m + Analog_Clock.dMinutes a + 1 * 60)%Z by lia.
    rewrite Z_mod_plus_full. reflexivity. }
  assert (Ep : proctor_clock.shown_hms
                 (Clock_with_offsets p (proctor_clock.d_hours p)
                    (proctor_clock.d_minutes p + 60)) now =
               proctor_clock.shown_hms p now).
  { unfold proctor_clock.shown_hms.
    cbn [Clock_with_offsets proctor_clock.delta proctor_clock.d_minutes
         proctor_clock.d_hours].
    destruct (timetuple_hms _) as [[h m] s].
    replace (m + (proctor_clock.d_minutes p + 60))%Z
      with (m + proctor_clock.d_minutes p + 1 * 60)%Z by lia.
    rewrite Z_mod_plus_full. reflexivity. }
  repeat split; try reflexivity; try assumption.
  - symmetry. apply painthms_same_time; [symmetry; exact Ea | eauto].
  - symmetry. apply paint_hms_same_time; [symmetry; exact Ep | eauto].
Qed.

(** C8.  After any run of key presses, the handler of the space bar leaves
    both stored offsets at zero and every other attribute as it was before
    the run; from then on the clock shows, at every time, the system time
    less the time zone (the hour on the dial of twelve), under a title that
    is this time, and the redraw that the handler makes is the redraw of
    the clock without offsets: title, hands and all. *)
Theorem C8_reset (ks : list (key * datetime)) (now : datetime) :
  let a' :=
    fst (Analog_Clock.resetTime (fst (Analog_Clock.presses a ks)) true now) in
  let p' :=
    fst (proctor_clock.reset_time (fst (proctor_clock.presses p ks)) true now)
  in
  Analog_Clock.dMinutes a' = 0%Z /\ Analog_Clock.dHours a' = 0%Z /\
  a' = clock_with_offsets a 0 0 /\
  (forall t, Analog_Clock.shown_hms a' t =
             unadjusted_hms (Analog_Clock.delta a) t) /\
  (forall t, nth_error (Analog_Clock.painthms a' t) 1 =
             Some (root_title
                     (let '(h, m, s) :=
                        unadjusted_hms (Analog_Clock.delta a) t in
                      fmt_hms h m s))) /\
  snd (Analog_Clock.resetTime (fst (Analog_Clock.presses a ks)) true now) =
    Analog_Clock.redraw (clock_with_offsets a 0 0) now /\
  proctor_clock.d_minutes p' = 0%Z /\ proctor_clock.d_hours p' = 0%Z /\
  p' = Clock_with_offsets p 0 0 /\
  (forall t, proctor_clock.shown_hms p' t =
             unadjusted_hms (proctor_clock.delta p) t) /\
  (forall t, nth_error (proctor_clock.paint_hms p' t) 1 =
             Some (root_title
                     (let '(h, m, s) :=
                        unadjusted_hms (proctor_clock.delta p) t in
                      fmt_hms h m s))) /\
  snd (proctor_clock.reset_time (fst (proctor_clock.presses p ks)) true now) =
    proctor_clock.redraw (Clock_with_offsets p 0 0) now.
Proof.
  intros a' p'. subst a' p'.
  destruct (presses_state ks a) as (dh & dm & ->).
  destruct (Presses_state ks p) as (Dh & Dm & ->).
  assert (Ua : forall t,
             Analog_Clock.shown_hms (clock_with_offsets a 0 0) t =
             unadjusted_hms (Analog_Clock.delta a) t).
  { intros t. rewrite shown_hms_with_offsets. unfold unadjusted_hms.
    destruct (timetuple_hms _) as [[h m] s] eqn:Et.
    apply timetuple_hms_range in Et.
    rewrite !Z.add_0_r, (Z.mod_small m 60) by lia. reflexivity. }
  assert (Up : forall t,
             proctor_clock.shown_hms (Clock_with_offsets p 0 0) t =
             unadjusted_hms (proctor_clock.delta p) t).
  { intros t. rewrite Shown_hms_with_offsets. unfold unadjusted_hms.
    destruct (timetuple_hms _) as [[h m] s] eqn:Et.
    apply timetuple_hms_range in Et.
    rewrite !Z.add_0_r, (Z.mod_small m 60) by lia. reflexivity. }
  repeat split; try reflexivity; try assumption.
  - intros t. unfold Analog_Clock.painthms.
    change (fst (Analog_Clock.resetTime (clock_with_offsets a dh dm) true now))
      with (clock_with_offsets a 0 0).
    rewrite Ua. destruct (unadjusted_hms _ t) as [[h m] s]. reflexivity.
  - intros t. unfold proctor_clock.paint_hms.
    change (fst (proctor_clock.reset_time (Clock_with_offsets p Dh Dm) true
                   now))
      with (Clock_with_offsets p 0 0).
    rewrite Up. destruct (unadjusted_hms _ t) as [[h m] s]. reflexivity.
Qed.

(** C10.  Whatever integers the stored offsets are, the hour shown lies in
    [0, 12), the minute and the second in [0, 60); the title, the second
    call of the redraw of the hands, starts with one of the fields [00] to
    [11], never with [12], and with [00] when the hour shown is [0], as it
    is at twelve o'clock; and a clock that shows minute [0] shows minute
    [59] of the same hour and second once the key that retreats the minute
    has been pressed. *)
Theorem C10_shown_ranges (now : datetime) :
  (forall h m s,
     Analog_Clock.shown_hms a now = (h, m, s) ->
     (0 <= h < 12)%Z /\ (0 <= m < 60)%Z /\ (0 <= s < 60)%Z /\
     nth_error (Analog_Clock.painthms a now) 1 =
       Some (root_title (fmt_hms h m s)) /\
     In (substring 0 2 (fmt_hms h m s)) hour_fields /\
     substring 0 2 (fmt_hms h m s) <> "12"%string /\
     (h = 0%Z -> substring 0 2 (fmt_hms h m s) = "00"%string) /\
     (m = 0%Z ->
      forall ev t,
        Analog_Clock.shown_hms (fst (Analog_Clock.subtractMinute a ev t)) now
        = (h, 59%Z, s))) /\
  (forall h m s,
     proctor_clock.shown_hms p now = (h, m, s) ->
     (0 <= h < 12)%Z /\ (0 <= m < 60)%Z /\ (0 <= s < 60)%Z /\
     nth_error (proctor_clock.paint_hms p now) 1 =
       Some (root_title (fmt_hms h m s)) /\
     In (substring 0 2 (fmt_hms h m s)) hour_fields /\
     substring 0 2 (fmt_hms h m s) <> "12"%string /\
     (h = 0%Z -> substring 0 2 (fmt_hms h m s) = "00"%string) /\
     (m = 0%Z ->
      forall t,
        proctor_clock.shown_hms
          (fst (proctor_clock.subtract_minute p true t)) now
        = (h, 59%Z, s))).
Proof.
  split; intros h m s E.
  - destruct (shown_hms_range a now h m s E) as (Hh & Hm & Hs).
    split; [exact Hh |]. split; [exact Hm |]. split; [exact Hs |].
    split; [unfold Analog_Clock.painthms; rewrite E; reflexivity |].
    split; [apply hour_field; exact Hh |].
    split; [apply hour_fields_no_12, hour_field; exact Hh |].
    split; [intros ->; apply first_two |].
    intros -> ev t. revert E.
    unfold Analog_Clock.subtractMinute, Analog_Clock.seekTime,
      Analog_Clock.shown_hms. cbn [fst Analog_Clock.delta
      Analog_Clock.dMinutes Analog_Clock.dHours].
    destruct (timetuple_hms _) as [[h0 m0] s0].
    intros E. injection E as Eh Em Es. rewrite Z.add_0_r. subst h s.
    f_equal. f_equal.
    rewrite Z.add_assoc, Zplus_mod, Em. reflexivity.
  - destruct (Shown_hms_range p now h m s E) as (Hh & Hm & Hs).
    split; [exact Hh |]. split; [exact Hm |]. split; [exact Hs |].
    split; [unfold proctor_clock.paint_hms; rewrite E; reflexivity |].
    split; [apply hour_field; exact Hh |].
    split; [apply hour_fields_no_12, hour_field; exact Hh |].
    split; [intros ->; apply first_two |].
    intros -> t. revert E.
    unfold proctor_clock.subtract_minute, proctor_clock.seek_time,
      proctor_clock.shown_hms. cbn [fst proctor_clock.delta
      proctor_clock.d_minutes proctor_clock.d_hours].
    destruct (timetuple_hms _) as [[h0 m0] s0].
    intros E. injection E as Eh Em Es. rewrite Z.add_0_r. subst h s.
    f_equal. f_equal.
    rewrite Z.add_assoc, Zplus_mod, Em. reflexivity.
Qed.

End Offsets.

(** ** The hands *)

(** The angles of [painthms], which are in radians, in degrees. *)
Lemma hour_angle_deg (h m : Z) :
  PI / 2 - PI / 6 * (IZR h + IZR m / 60.0) =
  deg (90 - 30 * (IZR h + IZR m / 60)).
Proof. unfold deg. lra. Qed.

Lemma minute_angle_deg (m s : Z) :
  PI / 2 - PI / 30 * (IZR m + IZR s / 60.0) =
  deg (90 - 6 * (IZR m + IZR s / 60)).
Proof. unfold deg. lra. Qed.

Lemma second_angle_deg (s : Z) :
  PI / 2 - PI / 30 * IZR s = deg (90 - 6 * IZR s).
Proof. unfold deg. lra. Qed.

Ltac in_degrees :=
  rewrite hour_angle_deg, minute_angle_deg, second_angle_deg;
  rewrite !(Rmult_comm (cos _)), !(Rmult_comm (sin _)).

(** C6.  With [h], [m], [s] the hour, minute and second shown, which lie in
    [0, 12), [0, 60) and [0, 60), the redraw of the hands deletes the old
    hands, sets the title and draws three lines from the image of the world
    origin: to the image of [0.60 (cos A, sin A)] with [A] the angle
    [90 - 30 (h + m / 60)] degrees, to the image of [0.90 (cos B, sin B)]
    with [B = 90 - 6 (m + s / 60)] degrees, and to the image of
    [0.95 (cos C, sin C)] with [C = 90 - 6 s] degrees.  Every hour, minute
    and second in these ranges is shown at some time.  The angle of the
    hour hand at 3:00 and the angle of the second hand at second 15 are both
    [0] degrees, where a hand points to the right. *)
Theorem C6_hand_angles (a : Analog_Clock.clock) (p : proctor_clock.Clock)
    (now : datetime) :
  (forall h m s,
     Analog_Clock.shown_hms a now = (h, m, s) ->
     ((0 <= h < 12)%Z /\ (0 <= m < 60)%Z /\ (0 <= s < 60)%Z) /\
     let hour := deg (90 - 30 * (IZR h + IZR m / 60)) in
     let minute := deg (90 - 6 * (IZR m + IZR s / 60)) in
     let second := deg (90 - 6 * IZR s) in
     Analog_Clock.painthms a now =
     [ canvas_delete (Analog_Clock._ALL a);
       root_title (fmt_hms h m s);
       canvas_create_line
         (Analog_Clock.windowToViewport (Analog_Clock.T a) 0 0
            (0.60 * cos hour) (0.60 * sin hour))
         (Analog_Clock.timecolor a) (Analog_Clock._ALL a)
         (Some (Analog_Clock.pad a / 3)) None;
       canvas_create_line
         (Analog_Clock.windowToViewport (Analog_Clock.T a) 0 0
            (0.90 * cos minute) (0.90 * sin minute))
         (Analog_Clock.timecolor a) (Analog_Clock._ALL a)
         (Some (Analog_Clock.pad a / 5)) None;
       canvas_create_line
         (Analog_Clock.windowToViewport (Analog_Clock.T a) 0 0
            (0.95 * cos second) (0.95 * sin second))
         (Analog_Clock.timecolor a) (Analog_Clock._ALL a)
         None (Some "last"%string) ]) /\
  (forall h m s,
     proctor_clock.shown_hms p now = (h, m, s) ->
     ((0 <= h < 12)%Z /\ (0 <= m < 60)%Z /\ (0 <= s < 60)%Z) /\
     let hour := deg (90 - 30 * (IZR h + IZR m / 60)) in
     let minute := deg (90 - 6 * (IZR m + IZR s / 60)) in
     let second := deg (90 - 6 * IZR s) in
     proctor_clock.paint_hms p now =
     [ canvas_delete (proctor_clock._all p);
       root_title (fmt_hms h m s);
       canvas_create_line
         (proctor_clock.window_to_viewport (proctor_clock.my_mapper p) 0 0
            (0.60 * cos hour) (0.60 * sin hour))
         (proctor_clock.timecolor p) (proctor_clock._all p)
         (Some (proctor_clock.pad p / 3)) None;
       canvas_create_line
         (proctor_clock.window_to_viewport (proctor_clock.my_mapper p) 0 0
            (0.90 * cos minute) (0.90 * sin minute))
         (proctor_clock.timecolor p) (proctor_clock._all p)
         (Some (proctor_clock.pad p / 5)) None;
       canvas_create_line
         (proctor_clock.window_to_viewport (proctor_clock.my_mapper p) 0 0
            (0.95 * cos second) (0.95 * sin second))
         (proctor_clock.secondcolor p) (proctor_clock._all p)
         (Some (proctor_clock.pad p / 15)) None ]) /\
  (forall h m s,
     (0 <= h < 12)%Z -> (0 <= m < 60)%Z -> (0 <= s < 60)%Z ->
     (exists t, Analog_Clock.shown_hms a t = (h, m, s)) /\
     (exists t, proctor_clock.shown_hms p t = (h, m, s))) /\
  deg (90 - 30 * (IZR 3 + IZR 0 / 60)) = deg (90 - 6 * IZR 15) /\
  deg (90 - 6 * IZR 15) = deg 0 /\
  (0.60 * cos (deg 0), 0.60 * sin (deg 0)) = (0.60, 0).
Proof.
  split; [| split; [| split; [| split; [| split]]]].
  - intros h m s E. split; [exact (shown_hms_range a now h m s E) |].
    intros hour minute second. subst hour minute second.
    unfold Analog_Clock.painthms. rewrite E. lazy beta iota zeta.
    in_degrees. reflexivity.
  - intros h m s E. split; [exact (Shown_hms_range p now h m s E) |].
    intros hour minute second. subst hour minute second.
    unfold proctor_clock.paint_hms. rewrite E. lazy beta iota zeta.
    in_degrees. reflexivity.
  - intros h m s Hh Hm Hs. split; eexists.
    + apply any_time_is_shown; assumption.
    + apply Any_time_is_shown; assumption.
  - unfold deg. lra.
  - unfold deg. lra.
  - replace (deg 0) with 0 by (unfold deg; lra).
    rewrite cos_0, sin_0. point.
Qed.

(** ** One file against the other *)

(** The two clock constructors return the same attributes; the second
    colour, which [Analog_Clock.py] does not have, follows the image flag. *)
Lemma clock_init_returns (have_image : bool) (dh : Z) (image : bool)
    (w h : R) :
  exists c,
    Analog_Clock.clock_init have_image dh image w h = inr c /\
    proctor_clock.Clock_init have_image dh image w h =
      inr (to_Clock (if Analog_Clock.showImage c then "red" else "#ff0000") c)
    /\ Analog_Clock.dMinutes c = 0%Z /\ Analog_Clock.dHours c = 0%Z
    /\ Analog_Clock.delta c = dh.
Proof.
  unfold Analog_Clock.clock_init, proctor_clock.Clock_init.
  rewrite Mapper_init_to_Mapper, mapper_init_value by lra.
  cbn [bind].
  destruct have_image, image; eexists; repeat split; reflexivity.
Qed.

Lemma paint_circle_to_Clock (second : string) (c : Analog_Clock.clock)
    (x y : R) :
  proctor_clock.paint_circle (to_Clock second c) x y =
  Analog_Clock.paintcircle c x y.
Proof. reflexivity. Qed.

(** The redraws of the two files, call by call: the same calls before the
    second hand and after it, and for the second hand a line with the same
    coordinates and tag whose other options differ. *)
Lemma redraw_side_by_side (second : string) (c : Analog_Clock.clock)
    (now : datetime) :
  exists before after xy,
    List.length before = 16%nat /\
    Analog_Clock.redraw c now =
      before
      ++ canvas_create_line xy (Analog_Clock.timecolor c)
           (Analog_Clock._ALL c) None (Some "last"%string)
      :: after /\
    proctor_clock.redraw (to_Clock second c) now =
      before
      ++ canvas_create_line xy second
           (Analog_Clock._ALL c) (Some (Analog_Clock.pad c / 15)) None
      :: after.
Proof.
  unfold Analog_Clock.redraw, proctor_clock.redraw.
  unfold Analog_Clock.painthms, proctor_clock.paint_hms.
  rewrite shown_hms_to_Clock.
  destruct (Analog_Clock.shown_hms c now) as [[h m] s].
  lazy beta iota zeta.
  match goal with
  | |- context [?ticks ++ [?d; ?t; ?hh; ?mh; canvas_create_line ?xy _ _ _ _]
                ++ ?centre] =>
      exists (ticks ++ [d; t; hh; mh]), centre, xy
  end.
  split; [reflexivity |].
  split; rewrite <- app_assoc; reflexivity.
Qed.

Lemma Forall2_middle {A : Type} (R : A -> A -> Prop) (l r r' : list A)
    (x y : A) :
  Forall2 R (l ++ x :: r) (l ++ y :: r') -> R x y.
Proof.
  induction l as [| z l IH]; cbn [app]; intros H; inversion H; subst; auto.
Qed.

(** Whatever the clock, the time and the colour, the two redraws differ by
    more than a fill colour. *)
Lemma redraws_differ (second : string) (c : Analog_Clock.clock)
    (now : datetime) :
  ~ Forall2 same_but_fill (Analog_Clock.redraw c now)
      (proctor_clock.redraw (to_Clock second c) now).
Proof.
  destruct (redraw_side_by_side second c now)
    as (before & after & xy & _ & -> & ->).
  intros H. apply Forall2_middle in H.
  destruct H as [E | (xy' & fa & fb & tag & width & arrow & Ea & Eb)].
  - discriminate E.
  - injection Ea as _ _ _ Ew _. injection Eb as _ _ _ Ew' _.
    rewrite <- Ew in Ew'. discriminate Ew'.
Qed.

(** The clocks that the two constructors return for the default arguments
    of [main] without an image, redrawn at the epoch: the redraws are not
    the same up to the fill colour of a line. *)
Lemma C9_counterexample :
  exists c,
    Analog_Clock.clock_init false 5 true 400 400 = inr c /\
    proctor_clock.Clock_init false 5 true 400 400 =
      inr (to_Clock "#ff0000" c) /\
    ~ Forall2 same_but_fill (Analog_Clock.redraw c 0%Z)
        (proctor_clock.redraw (to_Clock "#ff0000" c) 0%Z).
Proof.
  destruct (clock_init_returns false 5 true 400 400)
    as (c & Hc & HC & _).
  exists c. split; [exact Hc |].
  assert (Hs : Analog_Clock.showImage c = false).
  { unfold Analog_Clock.clock_init in Hc.
    rewrite mapper_init_value in Hc by lra. cbn [bind] in Hc.
    injection Hc as <-. reflexivity. }
  rewrite Hs in HC. split; [exact HC |].
  apply redraws_differ.
Qed.

(** C9, as the code has it.  The two mapper classes are one: the
    constructors raise on the same rectangles and return the same
    attributes, and the maps of two points agree.  On the same attributes
    and at the same time the two redraws issue the same calls with the same
    arguments, but for the line of the second hand, the seventeenth call:
    it has the same coordinates and tag in both files, and
    [Analog_Clock.py] gives it the colour of the other hands and an arrow
    at its tip and no width, where [proctor_clock.py] gives it a colour of
    its own and the width [pad / 15] and no arrow. *)
Theorem C9_two_files (w v : rect) (m : Analog_Clock.mapper)
    (x1 y1 x2 y2 : R) (second : string) (c : Analog_Clock.clock)
    (now : datetime) :
  proctor_clock.Mapper_init w v =
    (m' <- Analog_Clock.mapper_init w v ;; inr (to_Mapper m')) /\
  proctor_clock.window_to_viewport (to_Mapper m) x1 y1 x2 y2 =
    Analog_Clock.windowToViewport m x1 y1 x2 y2 /\
  exists before after xy,
    List.length before = 16%nat /\
    Analog_Clock.redraw c now =
      before
      ++ canvas_create_line xy (Analog_Clock.timecolor c)
           (Analog_Clock._ALL c) None (Some "last"%string)
      :: after /\
    proctor_clock.redraw (to_Clock second c) now =
      before
      ++ canvas_create_line xy second
           (Analog_Clock._ALL c) (Some (Analog_Clock.pad c / 15)) None
      :: after.
Proof.
  split; [apply Mapper_init_to_Mapper |].
  split; [apply window_to_viewport_to_Mapper |].
  apply redraw_side_by_side.
Qed.

(** ** The theorems at work

    The clock of the examples is the one that [main] builds by default when
    there is no image: time zone [5], a canvas of 400 by 400.  At the epoch
    it shows 07:00:00. *)

Lemma default_clock_at_epoch (c : Analog_Clock.clock) :
  Analog_Clock.dMinutes c = 0%Z -> Analog_Clock.dHours c = 0%Z ->
  Analog_Clock.delta c = 5%Z ->
  Analog_Clock.shown_hms c 0%Z = (7, 0, 0)%Z.
Proof.
  intros Hm Hh Hd. unfold Analog_Clock.shown_hms.
  rewrite Hm, Hh, Hd. reflexivity.
Qed.

Lemma C4_affine_invertible_witness :
  exists m M,
    Analog_Clock.mapper_init (-1, -1, 1, 1) (25, 25, 375, 375) = inr m /\
    proctor_clock.Mapper_init (-1, -1, 1, 1) (25, 25, 375, 375) = inr M /\
    0 < Analog_Clock.f m /\
    exists g : R * R -> R * R,
      (forall x y, g (Analog_Clock.__windowToViewport m x y) = (x, y)) /\
      (forall x y, g (proctor_clock._window_to_viewport M x y) = (x, y)).
Proof.
  destruct (C4_affine_invertible (-1) (-1) 1 1 25 25 375 375)
    as (m & M & Hm & HM & Hf & _ & _ & g & Hg & HG & _); try lra.
  exists m, M. split; [exact Hm |]. split; [exact HM |].
  split; [exact Hf |]. exists g. split; [exact Hg | exact HG].
Defined.

Lemma C6_hand_angles_witness :
  exists c,
    Analog_Clock.clock_init false 5 true 400 400 = inr c /\
    nth_error (Analog_Clock.painthms c 0%Z) 2 =
      Some (canvas_create_line
              (Analog_Clock.windowToViewport (Analog_Clock.T c) 0 0
                 (0.60 * cos (deg (90 - 30 * (IZR 7 + IZR 0 / 60))))
                 (0.60 * sin (deg (90 - 30 * (IZR 7 + IZR 0 / 60)))))
              (Analog_Clock.timecolor c) (Analog_Clock._ALL c)
              (Some (Analog_Clock.pad c / 3)) None) /\
    nth_error (proctor_clock.paint_hms (to_Clock "#ff0000" c) 0%Z) 4 =
      Some (canvas_create_line
              (Analog_Clock.windowToViewport (Analog_Clock.T c) 0 0
                 (0.95 * cos (deg (90 - 6 * IZR 0)))
                 (0.95 * sin (deg (90 - 6 * IZR 0))))
              "#ff0000"%string (Analog_Clock._ALL c)
              (Some (Analog_Clock.pad c / 15)) None).
Proof.
  destruct (clock_init_returns false 5 true 400 400)
    as (c & Hc & _ & Hm & Hh & Hd).
  exists c. split; [exact Hc |].
  destruct (C6_hand_angles c (to_Clock "#ff0000" c) 0%Z) as (Ha & Hp & _).
  destruct (Ha 7%Z 0%Z 0%Z (default_clock_at_epoch c Hm Hh Hd)) as [_ Ea].
  destruct (Hp 7%Z 0%Z 0%Z (default_clock_at_epoch c Hm Hh Hd)) as [_ Ep].
  cbv zeta in Ea, Ep. rewrite Ea, Ep. split; reflexivity.
Defined.

Lemma C7_sixty_minutes_witness :
  exists c,
    Analog_Clock.clock_init false 5 true 400 400 = inr c /\
    Analog_Clock.shown_hms
      (fst (Analog_Clock.presses c (map (pair KeyPress_f) (repeat 0%Z 60))))
      0%Z = (7, 0, 0)%Z /\
    proctor_clock.shown_hms
      (fst (proctor_clock.presses (to_Clock "#ff0000" c)
              (map (pair KeyPress_f) (repeat 0%Z 60))))
      0%Z = (7, 0, 0)%Z.
Proof.
  destruct (clock_init_returns false 5 true 400 400)
    as (c & Hc & _ & Hm & Hh & Hd).
  exists c. split; [exact Hc |].
  destruct (C7_sixty_minutes c (to_Clock "#ff0000" c) (repeat 0%Z 60) 0%Z)
    as (_ & _ & Ea & _ & _ & _ & Ep & _); [reflexivity |].
  split.
  - etransitivity; [exact Ea |]. apply default_clock_at_epoch; assumption.
  - etransitivity; [exact Ep |]. rewrite shown_hms_to_Clock.
    apply default_clock_at_epoch; assumption.
Defined.

Lemma C10_shown_ranges_witness :
  exists c,
    Analog_Clock.clock_init false 5 true 400 400 = inr c /\
    Analog_Clock.shown_hms c 0%Z = (7, 0, 0)%Z /\
    Analog_Clock.shown_hms (fst (Analog_Clock.subtractMinute c true 0%Z)) 0%Z
      = (7, 59, 0)%Z /\
    proctor_clock.shown_hms
      (fst (proctor_clock.subtract_minute (to_Clock "#ff0000" c) true 0%Z))
      0%Z = (7, 59, 0)%Z.
Proof.
  destruct (clock_init_returns false 5 true 400 400)
    as (c & Hc & _ & Hm & Hh & Hd).
  exists c. split; [exact Hc |].
  split; [exact (default_clock_at_epoch c Hm Hh Hd) |].
  destruct (C10_shown_ranges c (to_Clock "#ff0000" c) 0%Z) as (Ha & Hp).
  destruct (Ha 7%Z 0%Z 0%Z (default_clock_at_epoch c Hm Hh Hd))
    as (_ & _ & _ & _ & _ & _ & _ & Ra).
  destruct (Hp 7%Z 0%Z 0%Z (default_clock_at_epoch c Hm Hh Hd))
    as (_ & _ & _ & _ & _ & _ & _ & Rp).
  split; [apply Ra; reflexivity | apply Rp; reflexivity].
Defined.

(** Noon and midnight are both shown as [00]: the default clock when the
    system time less the time zone is 12:00:00. *)
Example title_at_noon (c : Analog_Clock.clock) :
  Analog_Clock.dMinutes c = 0%Z -> Analog_Clock.dHours c = 0%Z ->
  Analog_Clock.delta c = 5%Z ->
  nth_error (Analog_Clock.painthms c (17 * 3600)%Z) 1 =
  Some (root_title "00:00:00").
Proof.
  intros Hm Hh Hd. unfold Analog_Clock.painthms, Analog_Clock.shown_hms.
  rewrite Hm, Hh, Hd. reflexivity.
Qed.

(** * Further properties *)

(** ** The geometry of the mapper *)

(** Both files draw their ovals as circles: the box of the oval that
    [paintcircle] draws at [(x, y)] is a square around the image of
    [(x, y)], of half side [f * circlesize / 2], whatever the mapper. *)
Theorem ovals_are_circles (a : Analog_Clock.clock) (p : proctor_clock.Clock)
    (x y : R) :
  (let '(X, Y) := Analog_Clock.__windowToViewport (Analog_Clock.T a) x y in
   let r := Analog_Clock.f (Analog_Clock.T a)
            * (Analog_Clock.circlesize a / 2) in
   Analog_Clock.paintcircle a x y =
   [canvas_create_oval ((X - r, Y + r), (X + r, Y - r))
      (Analog_Clock.circlecolor a)]) /\
  (let '(X, Y) :=
     proctor_clock._window_to_viewport (proctor_clock.my_mapper p) x y in
   let r := proctor_clock.factor (proctor_clock.my_mapper p)
            * (proctor_clock.circlesize p / 2) in
   proctor_clock.paint_circle p x y =
   [canvas_create_oval ((X - r, Y + r), (X + r, Y - r))
      (proctor_clock.circlecolor p)]).
Proof.
  split.
  - unfold Analog_Clock.paintcircle, Analog_Clock.windowToViewport,
      Analog_Clock.__windowToViewport.
    do 3 f_equal; f_equal; lra.
  - unfold proctor_clock.paint_circle, proctor_clock.window_to_viewport,
      proctor_clock._window_to_viewport.
    do 3 f_equal; f_equal; lra.
Qed.

Section MapperGeometry.

Variables x_min y_min x_max y_max X_min Y_min X_max Y_max : R.
Hypothesis Hx : x_min < x_max.
Hypothesis Hy : y_min < y_max.
Hypothesis HX : X_min < X_max.
Hypothesis HY : Y_min < Y_max.

Let world : rect := (x_min, y_min, x_max, y_max).
Let viewport : rect := (X_min, Y_min, X_max, Y_max).
Let f_x : R := (X_max - X_min) / (x_max - x_min).
Let f_y : R := (Y_max - Y_min) / (y_max - y_min).

(** What the proofs of this section start from: the mapper, its factor
    between [0] and both quotients, and its offsets. *)
Lemma proper_mapper :
  exists m,
    Analog_Clock.mapper_init world viewport = inr m /\
    proctor_clock.Mapper_init world viewport = inr (to_Mapper m) /\
    0 < Analog_Clock.f m /\
    Analog_Clock.f m * (x_max - x_min) <= X_max - X_min /\
    Analog_Clock.f m * (y_max - y_min) <= Y_max - Y_min /\
    (f_x <= f_y -> Analog_Clock.f m * (x_max - x_min) = X_max - X_min) /\
    (f_y <= f_x -> Analog_Clock.f m * (y_max - y_min) = Y_max - Y_min) /\
    Analog_Clock.c_1 m =
      (X_min + X_max) / 2 - Analog_Clock.f m * ((x_min + x_max) / 2) /\
    Analog_Clock.c_2 m =
      (Y_min + Y_max) / 2 - Analog_Clock.f m * ((y_min + y_max) / 2).
Proof.
  destruct (both_init x_min y_min x_max y_max X_min Y_min X_max Y_max)
    as (m & Hm & HM & Hf & Hc1 & Hc2); [lra | lra |].
  exists m. fold f_x f_y in Hf.
  assert (Ex : f_x * (x_max - x_min) = X_max - X_min)
    by (unfold f_x; field; lra).
  assert (Ey : f_y * (y_max - y_min) = Y_max - Y_min)
    by (unfold f_y; field; lra).
  assert (Hpos : 0 < Analog_Clock.f m).
  { rewrite Hf. apply Rmin_quotients_pos; lra. }
  assert (Hlx : Analog_Clock.f m <= f_x) by (rewrite Hf; apply Rmin_l).
  assert (Hly : Analog_Clock.f m <= f_y) by (rewrite Hf; apply Rmin_r).
  split; [exact Hm |]. split; [exact HM |]. split; [exact Hpos |].
  split; [nra |]. split; [nra |].
  split; [intros L; rewrite Hf, Rmin_left by exact L; exact Ex |].
  split; [intros L; rewrite Hf, Rmin_right by exact L; exact Ey |].
  split; assumption.
Qed.

(** The mapper keeps the world inside the viewport: a point between the
    world's left and right edges lands between the viewport's, and, when
    the world is centred on the x-axis, a point between the world's bottom
    and top lands between the viewport's top and bottom. *)
Theorem world_lands_in_viewport (x y : R) :
  exists m,
    Analog_Clock.mapper_init world viewport = inr m /\
    proctor_clock.Mapper_init world viewport = inr (to_Mapper m) /\
    (x_min <= x <= x_max ->
     X_min <= fst (Analog_Clock.__windowToViewport m x y) <= X_max /\
     X_min <= fst (proctor_clock._window_to_viewport (to_Mapper m) x y)
           <= X_max) /\
    (y_min + y_max = 0 -> y_min <= y <= y_max ->
     Y_min <= snd (Analog_Clock.__windowToViewport m x y) <= Y_max /\
     Y_min <= snd (proctor_clock._window_to_viewport (to_Mapper m) x y)
           <= Y_max).
Proof.
  destruct proper_mapper
    as (m & Hm & HM & Hpos & Hfx & Hfy & _ & _ & Hc1 & Hc2).
  exists m. split; [exact Hm |]. split; [exact HM |].
  unfold proctor_clock._window_to_viewport, Analog_Clock.__windowToViewport.
  cbn [fst snd to_Mapper proctor_clock.factor proctor_clock.c_1
       proctor_clock.c_2].
  rewrite Hc1, Hc2. set (f := Analog_Clock.f m) in *.
  split.
  - intros Hin. split; split; nra.
  - intros H0 Hin. split; split; nra.
Qed.

(** The mapper fills the viewport along the axis with the smaller quotient
    of extents: if it is the x-axis, the world's left and right edges land
    on the viewport's left and right edges; if it is the y-axis and the
    world is centred on the x-axis, the world's top lands on the viewport's
    top edge [Y_min] and its bottom on the bottom edge [Y_max]. *)
Theorem tight_axis_fills_viewport (x y : R) :
  exists m,
    Analog_Clock.mapper_init world viewport = inr m /\
    proctor_clock.Mapper_init world viewport = inr (to_Mapper m) /\
    (f_x <= f_y ->
     fst (Analog_Clock.__windowToViewport m x_min y) = X_min /\
     fst (Analog_Clock.__windowToViewport m x_max y) = X_max) /\
    (f_y <= f_x -> y_min + y_max = 0 ->
     snd (Analog_Clock.__windowToViewport m x y_max) = Y_min /\
     snd (Analog_Clock.__windowToViewport m x y_min) = Y_max) /\
    (forall x' y',
       proctor_clock._window_to_viewport (to_Mapper m) x' y' =
       Analog_Clock.__windowToViewport m x' y').
Proof.
  destruct proper_mapper
    as (m & Hm & HM & Hpos & _ & _ & Ex & Ey & Hc1 & Hc2).
  exists m. split; [exact Hm |]. split; [exact HM |].
  split; [| split; [| intros; reflexivity]];
    unfold Analog_Clock.__windowToViewport; cbn [fst snd];
    rewrite ?Hc1, ?Hc2; set (f := Analog_Clock.f m) in *.
  - intros L. specialize (Ex L). split; nra.
  - intros L H0. specialize (Ey L). split; nra.
Qed.

(** The mapper scales both axes by the same positive factor and turns the
    y-axis over: steps to the right stay steps to the right, steps up become
    steps towards smaller ordinates, and the squared distance of two images
    is [f * f] times that of the points. *)
Theorem uniform_scale_and_flip (x1 y1 x2 y2 : R) :
  exists m,
    Analog_Clock.mapper_init world viewport = inr m /\
    proctor_clock.Mapper_init world viewport = inr (to_Mapper m) /\
    let '(P, Q) := Analog_Clock.windowToViewport m x1 y1 x2 y2 in
    proctor_clock.window_to_viewport (to_Mapper m) x1 y1 x2 y2 = (P, Q) /\
    (x1 < x2 -> fst P < fst Q) /\
    (y1 < y2 -> snd Q < snd P) /\
    dist2 P Q = Analog_Clock.f m * Analog_Clock.f m
                * dist2 (x1, y1) (x2, y2).
Proof.
  destruct proper_mapper as (m & Hm & HM & Hpos & _).
  exists m. split; [exact Hm |]. split; [exact HM |].
  unfold Analog_Clock.windowToViewport, Analog_Clock.__windowToViewport,
    dist2.
  cbn [fst snd]. set (f := Analog_Clock.f m) in *.
  split; [reflexivity |]. split; [intros; nra |]. split; [intros; nra |].
  ring.
Qed.

End MapperGeometry.

Lemma world_lands_in_viewport_witness :
  exists m,
    Analog_Clock.mapper_init (-1, -1, 1, 1) (25, 25, 375, 275) = inr m /\
    25 <= fst (Analog_Clock.__windowToViewport m (1 / 2) (-1)) <= 375 /\
    25 <= snd (Analog_Clock.__windowToViewport m (1 / 2) (-1)) <= 275.
Proof.
  destruct (world_lands_in_viewport (-1) (-1) 1 1 25 25 375 275
              ltac:(lra) ltac:(lra) ltac:(lra) ltac:(lra) (1 / 2) (-1))
    as (m & Hm & _ & Hh & Hv).
  exists m. split; [exact Hm |]. split.
  - apply Hh. lra.
  - apply Hv; lra.
Defined.

Lemma tight_axis_fills_viewport_witness :
  exists m,
    Analog_Clock.mapper_init (-1, -1, 1, 1) (25, 25, 375, 275) = inr m /\
    snd (Analog_Clock.__windowToViewport m 0 1) = 25 /\
    snd (Analog_Clock.__windowToViewport m 0 (-1)) = 275.
Proof.
  destruct (tight_axis_fills_viewport (-1) (-1) 1 1 25 25 375 275
              ltac:(lra) ltac:(lra) ltac:(lra) ltac:(lra) 0 0)
    as (m & Hm & _ & _ & Hv & _).
  exists m. split; [exact Hm |]. apply Hv; lra.
Defined.

Lemma uniform_scale_and_flip_witness :
  exists m,
    Analog_Clock.mapper_init (-1, -1, 1, 1) (25, 25, 375, 275) = inr m /\
    snd (snd (Analog_Clock.windowToViewport m 0 0 0 1))
    < snd (fst (Analog_Clock.windowToViewport m 0 0 0 1)).
Proof.
  destruct (uniform_scale_and_flip (-1) (-1) 1 1 25 25 375 275
              ltac:(lra) ltac:(lra) ltac:(lra) ltac:(lra) 0 0 0 1)
    as (m & Hm & _ & H).
  exists m. split; [exact Hm |].
  destruct (Analog_Clock.windowToViewport m 0 0 0 1) as [P Q].
  destruct H as (_ & _ & Hv & _). apply Hv. lra.
Defined.

(** ** The clock as built *)


(** ** The face *)

(** Every redraw issues, in this order: twelve ovals, one deletion of the
    items tagged as hands, the title, three lines that carry this tag, and
    a last oval, at the world origin, exactly when no image is shown.  The
    ovals carry no tag, and no call of a redraw deletes them. *)
Theorem redraw_shape (a : Analog_Clock.clock) (p : proctor_clock.Clock)
    (now : datetime) :
  (exists ticks title hands,
     Analog_Clock.redraw a now =
       ticks
       ++ [canvas_delete (Analog_Clock._ALL a); root_title title]
       ++ hands
       ++ (if Analog_Clock.showImage a then []
           else Analog_Clock.paintcircle a 0 0) /\
     List.length ticks = 12%nat /\
     Forall (fun t => exists xy fill, t = canvas_create_oval xy fill) ticks /\
     List.length hands = 3%nat /\
     Forall (fun l => exists xy fill width arrow,
                 l = canvas_create_line xy fill (Analog_Clock._ALL a)
                       width arrow) hands) /\
  (exists ticks title hands,
     proctor_clock.redraw p now =
       ticks
       ++ [canvas_delete (proctor_clock._all p); root_title title]
       ++ hands
       ++ (if proctor_clock.show_image p then []
           else proctor_clock.paint_circle p 0 0) /\
     List.length ticks = 12%nat /\
     Forall (fun t => exists xy fill, t = canvas_create_oval xy fill) ticks /\
     List.length hands = 3%nat /\
     Forall (fun l => exists xy fill width arrow,
                 l = canvas_create_line xy fill (proctor_clock._all p)
                       width arrow) hands).
Proof.
  split.
  - unfold Analog_Clock.redraw, Analog_Clock.painthms.
    destruct (Analog_Clock.shown_hms a now) as [[h m] s].
    lazy beta iota zeta.
    match goal with
    | |- context [?t ++ [?d; root_title ?ti; ?l1; ?l2; ?l3] ++ _] =>
        exists t, ti, [l1; l2; l3]
    end.
    split; [destruct (Analog_Clock.showImage a); reflexivity |].
    split; [reflexivity |].
    split; [repeat constructor; eexists; eexists; reflexivity |].
    split; [reflexivity |].
    repeat constructor; do 4 eexists; reflexivity.
  - unfold proctor_clock.redraw, proctor_clock.paint_hms.
    destruct (proctor_clock.shown_hms p now) as [[h m] s].
    lazy beta iota zeta.
    match goal with
    | |- context [?t ++ [?d; root_title ?ti; ?l1; ?l2; ?l3] ++ _] =>
        exists t, ti, [l1; l2; l3]
    end.
    split; [destruct (proctor_clock.show_image p); reflexivity |].
    split; [reflexivity |].
    split; [repeat constructor; eexists; eexists; reflexivity |].
    split; [reflexivity |].
    repeat constructor; do 4 eexists; reflexivity.
Qed.

Lemma hand_dist2 (f c1 c2 l A : R) :
  dist2 (f * 0 + c1, f * - 0 + c2)
        (f * (cos A * l) + c1, f * - (sin A * l) + c2)
  = (f * l) * (f * l).
Proof.
  unfold dist2. cbn [fst snd].
  transitivity (f * f * l * l * (Rsqr (sin A) + Rsqr (cos A)));
    [unfold Rsqr; ring | rewrite sin2_cos2; ring].
Qed.

(** At every time the three hands start at the image of the world origin
    and have the lengths [0.60 f], [0.90 f] and [0.95 f] on the screen,
    [f] being the factor of the mapper: the time turns the hands and does
    not stretch them. *)
Theorem hands_keep_their_lengths (a : Analog_Clock.clock)
    (p : proctor_clock.Clock) (now : datetime) :
  (exists title P_h P_m P_s,
     let O := Analog_Clock.__windowToViewport (Analog_Clock.T a) 0 0 in
     let f := Analog_Clock.f (Analog_Clock.T a) in
     Analog_Clock.painthms a now =
       [ canvas_delete (Analog_Clock._ALL a);
         root_title title;
         canvas_create_line (O, P_h) (Analog_Clock.timecolor a)
           (Analog_Clock._ALL a) (Some (Analog_Clock.pad a / 3)) None;
         canvas_create_line (O, P_m) (Analog_Clock.timecolor a)
           (Analog_Clock._ALL a) (Some (Analog_Clock.pad a / 5)) None;
         canvas_create_line (O, P_s) (Analog_Clock.timecolor a)
           (Analog_Clock._ALL a) None (Some "last"%string) ] /\
     dist2 O P_h = (f * 0.60) * (f * 0.60) /\
     dist2 O P_m = (f * 0.90) * (f * 0.90) /\
     dist2 O P_s = (f * 0.95) * (f * 0.95)) /\
  (exists title P_h P_m P_s,
     let O :=
       proctor_clock._window_to_viewport (proctor_clock.my_mapper p) 0 0 in
     let f := proctor_clock.factor (proctor_clock.my_mapper p) in
     proctor_clock.paint_hms p now =
       [ canvas_delete (proctor_clock._all p);
         root_title title;
         canvas_create_line (O, P_h) (proctor_clock.timecolor p)
           (proctor_clock._all p) (Some (proctor_clock.pad p / 3)) None;
         canvas_create_line (O, P_m) (proctor_clock.timecolor p)
           (proctor_clock._all p) (Some (proctor_clock.pad p / 5)) None;
         canvas_create_line (O, P_s) (proctor_clock.secondcolor p)
           (proctor_clock._all p) (Some (proctor_clock.pad p / 15)) None ] /\
     dist2 O P_h = (f * 0.60) * (f * 0.60) /\
     dist2 O P_m = (f * 0.90) * (f * 0.90) /\
     dist2 O P_s = (f * 0.95) * (f * 0.95)).
Proof.
  split.
  - unfold Analog_Clock.painthms.
    destruct (Analog_Clock.shown_hms a now) as [[h m] s].
    lazy beta iota zeta. unfold Analog_Clock.windowToViewport.
    do 4 eexists. split; [reflexivity |].
    unfold Analog_Clock.__windowToViewport.
    repeat split; apply hand_dist2.
  - unfold proctor_clock.paint_hms.
    destruct (proctor_clock.shown_hms p now) as [[h m] s].
    lazy beta iota zeta. unfold proctor_clock.window_to_viewport.
    do 4 eexists. split; [reflexivity |].
    unfold proctor_clock._window_to_viewport.
    repeat split; apply hand_dist2.
Qed.

Lemma tick_angle_deg (i : nat) :
  PI / 2 - INR i * (PI / 6) = deg (90 - 30 * INR i).
Proof. unfold deg. field. Qed.

(** The redraw puts its [i]-th oval, for [i] from [0] to [11], around the
    point of the unit circle at [90 - 30 i] degrees; and when the clock
    shows [i] o'clock sharp the hour hand ends at [0.60] times this point:
    it points at the middle of the [i]-th oval. *)
Theorem ticks_mark_the_hours (a : Analog_Clock.clock)
    (p : proctor_clock.Clock) (now : datetime) (i : nat) :
  (i < 12)%nat ->
  let tick := deg (90 - 30 * INR i) in
  (exists oval,
     Analog_Clock.paintcircle a (cos tick) (sin tick) = [oval] /\
     nth_error (Analog_Clock.redraw a now) i = Some oval) /\
  (exists oval,
     proctor_clock.paint_circle p (cos tick) (sin tick) = [oval] /\
     nth_error (proctor_clock.redraw p now) i = Some oval) /\
  (forall s,
     Analog_Clock.shown_hms a now = (Z.of_nat i, 0%Z, s) ->
     nth_error (Analog_Clock.painthms a now) 2 =
       Some (canvas_create_line
               (Analog_Clock.windowToViewport (Analog_Clock.T a) 0 0
                  (0.60 * cos tick) (0.60 * sin tick))
               (Analog_Clock.timecolor a) (Analog_Clock._ALL a)
               (Some (Analog_Clock.pad a / 3)) None)) /\
  (forall s,
     proctor_clock.shown_hms p now = (Z.of_nat i, 0%Z, s) ->
     nth_error (proctor_clock.paint_hms p now) 2 =
       Some (canvas_create_line
               (proctor_clock.window_to_viewport (proctor_clock.my_mapper p)
                  0 0 (0.60 * cos tick) (0.60 * sin tick))
               (proctor_clock.timecolor p) (proctor_clock._all p)
               (Some (proctor_clock.pad p / 3)) None)).
Proof.
  intros Hi tick.
  assert (Eh : PI / 2 - PI / 6 * (IZR (Z.of_nat i) + IZR 0 / 60.0) = tick).
  { subst tick. unfold deg. rewrite <- INR_IZR_INZ. lra. }
  subst tick. rewrite <- tick_angle_deg in *.
  split; [| split; [| split]].
  - eexists. split; [reflexivity |].
    do 12 (destruct i as [| i]; [reflexivity |]). lia.
  - eexists. split; [reflexivity |].
    do 12 (destruct i as [| i]; [reflexivity |]). lia.
  - intros s E. unfold Analog_Clock.painthms. rewrite E.
    lazy beta iota zeta. rewrite Eh.
    rewrite !(Rmult_comm (cos _)), !(Rmult_comm (sin _)). reflexivity.
  - intros s E. unfold proctor_clock.paint_hms. rewrite E.
    lazy beta iota zeta. rewrite Eh.
    rewrite !(Rmult_comm (cos _)), !(Rmult_comm (sin _)). reflexivity.
Qed.

Lemma ticks_mark_the_hours_witness :
  exists c oval,
    Analog_Clock.clock_init false 5 true 400 400 = inr c /\
    Analog_Clock.paintcircle c (cos (deg (90 - 30 * INR 7)))
      (sin (deg (90 - 30 * INR 7))) = [oval] /\
    nth_error (Analog_Clock.redraw c 0%Z) 7 = Some oval /\
    nth_error (Analog_Clock.painthms c 0%Z) 2 =
      Some (canvas_create_line
              (Analog_Clock.windowToViewport (Analog_Clock.T c) 0 0
                 (0.60 * cos (deg (90 - 30 * INR 7)))
                 (0.60 * sin (deg (90 - 30 * INR 7))))
              (Analog_Clock.timecolor c) (Analog_Clock._ALL c)
              (Some (Analog_Clock.pad c / 3)) None).
Proof.
  destruct (clock_init_returns false 5 true 400 400)
    as (c & Hc & _ & Hm & Hh & Hd).
  destruct (ticks_mark_the_hours c (to_Clock "#ff0000" c) 0%Z 7)
    as ((oval & Ho & Hn) & _ & Hhand & _); [lia |].
  exists c, oval. split; [exact Hc |]. split; [exact Ho |].
  split; [exact Hn |].
  apply (Hhand 0%Z). apply default_clock_at_epoch; assumption.
Defined.

(** ** The keys *)

Lemma clock_with_offsets_twice (c : Analog_Clock.clock) (dh dm dh' dm' : Z) :
  clock_with_offsets (clock_with_offsets c dh dm) dh' dm' =
  clock_with_offsets c dh' dm'.
Proof. reflexivity. Qed.

Lemma Clock_with_offsets_twice (p : proctor_clock.Clock)
    (dh dm dh' dm' : Z) :
  Clock_with_offsets (Clock_with_offsets p dh dm) dh' dm' =
  Clock_with_offsets p dh' dm'.
Proof. reflexivity. Qed.

Lemma clock_with_offsets_eq (c : Analog_Clock.clock) (dh dm dh' dm' : Z) :
  dh = dh' -> dm = dm' ->
  clock_with_offsets c dh dm = clock_with_offsets c dh' dm'.
Proof. intros -> ->. reflexivity. Qed.

Lemma Clock_with_offsets_eq (p : proctor_clock.Clock) (dh dm dh' dm' : Z) :
  dh = dh' -> dm = dm' ->
  Clock_with_offsets p dh dm = Clock_with_offsets p dh' dm'.
Proof. intros -> ->. reflexivity. Qed.

Lemma times_pressed_cons (k k' : key) (t : datetime)
    (ks : list (key * datetime)) :
  times_pressed k ((k', t) :: ks) =
  ((match k', k with
    | KeyPress_f, KeyPress_f | KeyPress_v, KeyPress_v
    | KeyPress_F, KeyPress_F | KeyPress_V, KeyPress_V
    | space, space => 1
    | _, _ => 0
    end) + times_pressed k ks)%Z.
Proof.
  unfold times_pressed. cbn [filter fst].
  destruct k', k; cbn [List.length]; lia.
Qed.

(** The handlers of the four moving keys add up: a run of presses without
    the space bar adds to the stored minutes the presses of [f] less those
    of [v], to the stored hours the presses of [F] less those of [V], and
    changes nothing else; so the order of the presses does not matter, and
    a press of [f] and one of [v], or one of [F] and one of [V], undo each
    other. *)
Theorem presses_add_up (a : Analog_Clock.clock) (p : proctor_clock.Clock)
    (ks : list (key * datetime)) :
  times_pressed space ks = 0%Z ->
  fst (Analog_Clock.presses a ks) =
    clock_with_offsets a
      (Analog_Clock.dHours a
       + times_pressed KeyPress_F ks - times_pressed KeyPress_V ks)
      (Analog_Clock.dMinutes a
       + times_pressed KeyPress_f ks - times_pressed KeyPress_v ks) /\
  fst (proctor_clock.presses p ks) =
    Clock_with_offsets p
      (proctor_clock.d_hours p
       + times_pressed KeyPress_F ks - times_pressed KeyPress_V ks)
      (proctor_clock.d_minutes p
       + times_pressed KeyPress_f ks - times_pressed KeyPress_v ks).
Proof.
  revert a p. induction ks as [| [k t] ks IH]; intros a p Hs.
  - cbn [Analog_Clock.presses proctor_clock.presses fst].
    change (times_pressed _ []) with 0%Z.
    rewrite !Z.add_0_r, !Z.sub_0_r.
    rewrite clock_with_own_offsets, Clock_with_own_offsets. split; reflexivity.
  - rewrite presses_cons, Presses_cons, press_state, Press_state.
    rewrite times_pressed_cons in Hs.
    assert (Hpos : (0 <= times_pressed space ks)%Z)
      by (unfold times_pressed; lia).
    rewrite !(times_pressed_cons _ k).
    destruct k; try lia;
      match goal with
      | |- context [Analog_Clock.presses ?a' ks] =>
          match goal with
          | |- context [proctor_clock.presses ?p' ks] =>
              destruct (IH a' p' ltac:(lia)) as [-> ->]
          end
      end;
      rewrite clock_with_offsets_twice, Clock_with_offsets_twice;
      (split; [apply clock_with_offsets_eq | apply Clock_with_offsets_eq]);
      cbn [clock_with_offsets Clock_with_offsets Analog_Clock.dHours
           Analog_Clock.dMinutes proctor_clock.d_hours
           proctor_clock.d_minutes]; lia.
Qed.

Lemma presses_add_up_witness :
  exists c,
    Analog_Clock.clock_init false 5 true 400 400 = inr c /\
    fst (Analog_Clock.presses c
           [(KeyPress_f, 1%Z); (KeyPress_F, 2%Z); (KeyPress_v, 3%Z)]) =
    clock_with_offsets c (Analog_Clock.dHours c + 1 - 0)
      (Analog_Clock.dMinutes c + 1 - 1).
Proof.
  destruct (clock_init_returns false 5 true 400 400) as (c & Hc & _).
  exists c. split; [exact Hc |].
  apply (presses_add_up c (to_Clock "#ff0000" c)
           [(KeyPress_f, 1%Z); (KeyPress_F, 2%Z); (KeyPress_v, 3%Z)]).
  reflexivity.
Defined.

Lemma redraw_with_offsets (c : Analog_Clock.clock) (dh dm dh' dm' : Z)
    (now : datetime) :
  Analog_Clock.shown_hms (clock_with_offsets c dh dm) now =
  Analog_Clock.shown_hms (clock_with_offsets c dh' dm') now ->
  Analog_Clock.redraw (clock_with_offsets c dh dm) now =
  Analog_Clock.redraw (clock_with_offsets c dh' dm') now.
Proof.
  intros E. unfold Analog_Clock.redraw. f_equal. f_equal.
  apply painthms_same_time; [exact E |].
  exists dh', dm'. reflexivity.
Qed.

Lemma Redraw_with_offsets (p : proctor_clock.Clock) (dh dm dh' dm' : Z)
    (now : datetime) :
  proctor_clock.shown_hms (Clock_with_offsets p dh dm) now =
  proctor_clock.shown_hms (Clock_with_offsets p dh' dm') now ->
  proctor_clock.redraw (Clock_with_offsets p dh dm) now =
  proctor_clock.redraw (Clock_with_offsets p dh' dm') now.
Proof.
  intros E. unfold proctor_clock.redraw. f_equal. f_equal.
  apply paint_hms_same_time; [exact E |].
  exists dh', dm'. reflexivity.
Qed.

(** The stored offsets count modulo the dial: two clocks that differ in
    their stored offsets only, by minutes congruent modulo 60 and hours
    congruent modulo 12, issue the same calls at every redraw.  Twelve
    presses of [F] therefore change nothing that is drawn. *)
Theorem offsets_count_modulo_the_dial (a : Analog_Clock.clock)
    (p : proctor_clock.Clock) (dh dm dh' dm' : Z) (now : datetime) :
  (dm mod 60 = dm' mod 60)%Z -> (dh mod 12 = dh' mod 12)%Z ->
  Analog_Clock.redraw (clock_with_offsets a dh dm) now =
  Analog_Clock.redraw (clock_with_offsets a dh' dm') now /\
  proctor_clock.redraw (Clock_with_offsets p dh dm) now =
  proctor_clock.redraw (Clock_with_offsets p dh' dm') now.
Proof.
  intros Em Eh. split.
  - apply redraw_with_offsets. rewrite !shown_hms_with_offsets.
    destruct (timetuple_hms _) as [[h m] s].
    rewrite (Zplus_mod h dh), (Zplus_mod h dh'), Eh.
    rewrite (Zplus_mod m dm), (Zplus_mod m dm'), Em. reflexivity.
  - apply Redraw_with_offsets. rewrite !Shown_hms_with_offsets.
    destruct (timetuple_hms _) as [[h m] s].
    rewrite (Zplus_mod h dh), (Zplus_mod h dh'), Eh.
    rewrite (Zplus_mod m dm), (Zplus_mod m dm'), Em. reflexivity.
Qed.

Lemma offsets_count_modulo_the_dial_witness :
  exists c,
    Analog_Clock.clock_init false 5 true 400 400 = inr c /\
    Analog_Clock.redraw (clock_with_offsets c 12 (-60)) 0%Z =
    Analog_Clock.redraw (clock_with_offsets c 0 0) 0%Z.
Proof.
  destruct (clock_init_returns false 5 true 400 400) as (c & Hc & _).
  exists c. split; [exact Hc |].
  apply (offsets_count_modulo_the_dial c (to_Clock "#ff0000" c)
           12 (-60) 0 0 0%Z); reflexivity.
Defined.

(** No carry between the hands: a clock that shows minute 59 shows minute
    0 of the same hour after a press of [f], and a clock that shows hour 11
    shows hour 0 after a press of [F] and hour 11 again after a press of
    [V]. *)
Theorem no_carry (a : Analog_Clock.clock) (p : proctor_clock.Clock)
    (now t : datetime) :
  (forall h s,
     Analog_Clock.shown_hms a now = (h, 59%Z, s) ->
     Analog_Clock.shown_hms (fst (Analog_Clock.press a KeyPress_f t)) now =
       (h, 0%Z, s)) /\
  (forall m s,
     Analog_Clock.shown_hms a now = (11%Z, m, s) ->
     Analog_Clock.shown_hms (fst (Analog_Clock.press a KeyPress_F t)) now =
       (0%Z, m, s)) /\
  (forall h s,
     proctor_clock.shown_hms p now = (h, 59%Z, s) ->
     proctor_clock.shown_hms (fst (proctor_clock.press p KeyPress_f t)) now =
       (h, 0%Z, s)) /\
  (forall m s,
     proctor_clock.shown_hms p now = (11%Z, m, s) ->
     proctor_clock.shown_hms (fst (proctor_clock.press p KeyPress_F t)) now =
       (0%Z, m, s)).
Proof.
  repeat split; intros x s; rewrite ?press_state, ?Press_state;
    rewrite ?shown_hms_with_offsets, ?Shown_hms_with_offsets;
    unfold Analog_Clock.shown_hms, proctor_clock.shown_hms;
    destruct (timetuple_hms _) as [[h0 m0] s0];
    intros E; injection E as Eh Em Es; subst;
    rewrite ?Z.add_0_r, ?Z.add_assoc;
    first [ rewrite (Zplus_mod _ 1 60), Em
          | rewrite (Zplus_mod _ 1 12), Eh ];
    reflexivity.
Qed.

Lemma no_carry_witness :
  exists c,
    Analog_Clock.clock_init false 5 true 400 400 = inr c /\
    Analog_Clock.shown_hms c 3540%Z = (7, 59, 0)%Z /\
    Analog_Clock.shown_hms (fst (Analog_Clock.press c KeyPress_f 3541%Z))
      3540%Z = (7, 0, 0)%Z.
Proof.
  destruct (clock_init_returns false 5 true 400 400)
    as (c & Hc & _ & Hm & Hh & Hd).
  exists c. split; [exact Hc |].
  assert (E : Analog_Clock.shown_hms c 3540%Z = (7, 59, 0)%Z).
  { unfold Analog_Clock.shown_hms. rewrite Hm, Hh, Hd. reflexivity. }
  split; [exact E |].
  destruct (no_carry c (to_Clock "#ff0000" c) 3540%Z 3541%Z) as (H & _).
  apply H. exact E.
Defined.

(** ** The two files under the keys *)

Lemma same_place_refl (l : list tk_call) : Forall2 same_place l l.
Proof. induction l; constructor; [left; reflexivity | assumption]. Qed.

Lemma redraw_same_place (second : string) (c : Analog_Clock.clock)
    (now : datetime) :
  Forall2 same_place (Analog_Clock.redraw c now)
    (proctor_clock.redraw (to_Clock second c) now).
Proof.
  destruct (redraw_side_by_side second c now)
    as (before & after & xy & _ & -> & ->).
  apply Forall2_app; [apply same_place_refl |].
  constructor; [| apply same_place_refl].
  right. do 8 eexists. split; reflexivity.
Qed.

Lemma press_to_Clock (second : string) (c : Analog_Clock.clock) (k : key)
    (now : datetime) :
  fst (proctor_clock.press (to_Clock second c) k now) =
    to_Clock second (fst (Analog_Clock.press c k now)) /\
  Forall2 same_place (snd (Analog_Clock.press c k now))
    (snd (proctor_clock.press (to_Clock second c) k now)).
Proof.
  split; [destruct k; reflexivity |].
  destruct k; apply redraw_same_place.
Qed.

(** The two files handle the keys alike: started on the same attributes, a
    run of key presses leaves them on the same attributes, and the calls
    that they issue on the way are, one by one, the same call, or two lines
    between the same points under the same tag (the second hands). *)
Theorem presses_in_step (second : string) (c : Analog_Clock.clock)
    (ks : list (key * datetime)) :
  fst (proctor_clock.presses (to_Clock second c) ks) =
    to_Clock second (fst (Analog_Clock.presses c ks)) /\
  Forall2 same_place (snd (Analog_Clock.presses c ks))
    (snd (proctor_clock.presses (to_Clock second c) ks)).
Proof.
  revert c. induction ks as [| [k t] ks IH]; intros c.
  - split; [reflexivity | constructor].
  - cbn [Analog_Clock.presses proctor_clock.presses].
    destruct (press_to_Clock second c k t) as [Es Ec].
    destruct (Analog_Clock.press c k t) as [c1 out].
    destruct (proctor_clock.press (to_Clock second c) k t) as [p1 Out].
    cbn [fst snd] in Es, Ec. subst p1.
    destruct (IH c1) as [Es' Ec'].
    destruct (Analog_Clock.presses c1 ks) as [c2 outs].
    destruct (proctor_clock.presses (to_Clock second c1) ks) as [p2 Outs].
    cbn [fst snd] in *. split; [exact Es' |].
    apply Forall2_app; assumption.
Qed.

(** ** Resizing *)

Lemma py_min_int_cases (a b : Z) :
  (a <= b /\ py_min_int a b = a)%Z \/ (b < a /\ py_min_int a b = b)%Z.
Proof. unfold py_min_int. destruct (Z.ltb_spec b a); [right | left]; lia. Qed.

Lemma canvas_side (w h : Z) :
  (0 < w)%Z -> (0 < h)%Z ->
  0 < IZR (py_min_int w h) /\
  IZR (py_min_int w h) <= IZR w /\ IZR (py_min_int w h) <= IZR h /\
  (IZR (py_min_int w h) = IZR w \/ IZR (py_min_int w h) = IZR h).
Proof.
  intros Hw Hh. apply IZR_lt in Hw, Hh.
  destruct (py_min_int_cases w h) as [[L ->] | [L ->]].
  - apply IZR_le in L. repeat split; try lra; now left.
  - apply IZR_lt in L. repeat split; try lra; now right.
Qed.

(** The mapper of a canvas with two positive sides, as the constructor
    computes it. *)
Lemma mapper_init_canvas (w h : Z) :
  (0 < w)%Z -> (0 < h)%Z ->
  let side := IZR (py_min_int w h) in
  Analog_Clock.mapper_init (-1, -1, 1, 1)
    (side / 16, side / 16, IZR w - side / 16, IZR h - side / 16) =
  inr {| Analog_Clock.world := (-1, -1, 1, 1);
         Analog_Clock.viewport :=
           (side / 16, side / 16, IZR w - side / 16, IZR h - side / 16);
         Analog_Clock.f :=
           py_min ((IZR w - side / 16 - side / 16) / (1 - -1))
                  ((IZR h - side / 16 - side / 16) / (1 - -1));
         Analog_Clock.c_1 :=
           0.5 * (side / 16 + (IZR w - side / 16))
           - py_min ((IZR w - side / 16 - side / 16) / (1 - -1))
                    ((IZR h - side / 16 - side / 16) / (1 - -1))
             * (0.5 * (-1 + 1));
         Analog_Clock.c_2 :=
           0.5 * (side / 16 + (IZR h - side / 16))
           - py_min ((IZR w - side / 16 - side / 16) / (1 - -1))
                    ((IZR h - side / 16 - side / 16) / (1 - -1))
             * (0.5 * (-1 + 1)) |} /\
  py_min ((IZR w - side / 16 - side / 16) / (1 - -1))
         ((IZR h - side / 16 - side / 16) / (1 - -1)) = 7 * side / 16.
Proof.
  intros Hw Hh side. split; [apply mapper_init_value; lra |].
  destruct (canvas_side w h Hw Hh) as (Hs & Hsw & Hsh & Hc).
  fold side in Hs, Hsw, Hsh, Hc.
  rewrite py_min_Rmin. destruct Hc as [E | E].
  - rewrite Rmin_left by lra. lra.
  - rewrite Rmin_right by lra. lra.
Qed.

(** A mapper is known by its attributes. *)
Lemma mapper_eq (w v : rect) (f f' c1 c1' c2 c2' : R) :
  f = f' -> c1 = c1' -> c2 = c2' ->
  {| Analog_Clock.world := w; Analog_Clock.viewport := v;
     Analog_Clock.f := f; Analog_Clock.c_1 := c1; Analog_Clock.c_2 := c2 |} =
  {| Analog_Clock.world := w; Analog_Clock.viewport := v;
     Analog_Clock.f := f'; Analog_Clock.c_1 := c1'; Analog_Clock.c_2 := c2' |}.
Proof. intros -> -> ->. reflexivity. Qed.

(** What [resize] does to a clock with the clock's world on a canvas with
    two positive sides. *)
Lemma resize_value (c : Analog_Clock.clock) (ev : event) (w h : Z)
    (now : datetime) :
  Analog_Clock.clock_world c = (-1, -1, 1, 1) ->
  (0 < w)%Z -> (0 < h)%Z ->
  let c' := clock_with_geometry c (IZR (py_min_int w h) / 16)
              (mapper_of_canvas w h) in
  Analog_Clock.resize c ev w h now =
  (c',
   redraw_call (canvas_delete ALL)
   :: (if Analog_Clock.showImage c
       then canvas_create_image (IZR w / 2) (IZR h / 2)
              (py_int (0.8 * 0.8 * IZR (py_min_int w h)),
               py_int (0.8 * IZR (py_min_int w h)))
       else canvas_create_rectangle ((0, 0), (IZR w, IZR h))
              (Analog_Clock.bgcolor c))
   :: map redraw_call (Analog_Clock.redraw c' now),
   None).
Proof.
  intros Hworld Hw Hh c'. unfold Analog_Clock.resize.
  cbn [Analog_Clock.clock_world Analog_Clock.pad]. rewrite Hworld.
  destruct (mapper_init_canvas w h Hw Hh) as [-> Hf].
  assert (ET : forall v,
             {| Analog_Clock.world := (-1, -1, 1, 1);
                Analog_Clock.viewport := v;
                Analog_Clock.f :=
                  py_min
                    ((IZR w - IZR (py_min_int w h) / 16
                      - IZR (py_min_int w h) / 16) / (1 - -1))
                    ((IZR h - IZR (py_min_int w h) / 16
                      - IZR (py_min_int w h) / 16) / (1 - -1));
                Analog_Clock.c_1 :=
                  0.5 * (IZR (py_min_int w h) / 16
                         + (IZR w - IZR (py_min_int w h) / 16))
                  - py_min
                      ((IZR w - IZR (py_min_int w h) / 16
                        - IZR (py_min_int w h) / 16) / (1 - -1))
                      ((IZR h - IZR (py_min_int w h) / 16
                        - IZR (py_min_int w h) / 16) / (1 - -1))
                    * (0.5 * (-1 + 1));
                Analog_Clock.c_2 :=
                  0.5 * (IZR (py_min_int w h) / 16
                         + (IZR h - IZR (py_min_int w h) / 16))
                  - py_min
                      ((IZR w - IZR (py_min_int w h) / 16
                        - IZR (py_min_int w h) / 16) / (1 - -1))
                      ((IZR h - IZR (py_min_int w h) / 16
                        - IZR (py_min_int w h) / 16) / (1 - -1))
                    * (0.5 * (-1 + 1)) |} =
             {| Analog_Clock.world := (-1, -1, 1, 1);
                Analog_Clock.viewport := v;
                Analog_Clock.f := 7 * IZR (py_min_int w h) / 16;
                Analog_Clock.c_1 := IZR w / 2;
                Analog_Clock.c_2 := IZR h / 2 |}).
  { intros v. rewrite Hf. apply mapper_eq; lra. }
  rewrite ET. cbn [Analog_Clock.showImage Analog_Clock.bgcolor].
  subst c'. unfold clock_with_geometry, mapper_of_canvas. rewrite Hworld.
  reflexivity.
Qed.

Lemma mapped_on_canvas (T : Analog_Clock.mapper) (W H side x y : R) :
  0 < side -> side <= W -> side <= H ->
  Analog_Clock.f T = 7 * side / 16 ->
  Analog_Clock.c_1 T = W / 2 -> Analog_Clock.c_2 T = H / 2 ->
  -8 / 7 <= x <= 8 / 7 -> -8 / 7 <= y <= 8 / 7 ->
  on_canvas W H (Analog_Clock.__windowToViewport T x y).
Proof.
  intros Hs HW HH Hf H1 H2 Hx Hy.
  unfold on_canvas, Analog_Clock.__windowToViewport. cbn [fst snd].
  rewrite Hf, H1, H2. repeat split; nra.
Qed.

Ltac trig_bounds :=
  repeat match goal with
         | |- context [cos ?A] =>
             lazymatch goal with
             | _ : -1 <= cos A <= 1 |- _ => fail
             | _ => pose proof (COS_bound A)
             end
         | |- context [sin ?A] =>
             lazymatch goal with
             | _ : -1 <= sin A <= 1 |- _ => fail
             | _ => pose proof (SIN_bound A)
             end
         end.

(** With the circles of the constructor and a mapper of factor [7/16] of
    the smaller side of the canvas and offsets in its middle, a redraw
    stays on the canvas. *)
Lemma redraw_on_canvas (c : Analog_Clock.clock) (W H side : R)
    (now : datetime) :
  0 < side -> side <= W -> side <= H ->
  Analog_Clock.circlesize c = 0.09 ->
  Analog_Clock.f (Analog_Clock.T c) = 7 * side / 16 ->
  Analog_Clock.c_1 (Analog_Clock.T c) = W / 2 ->
  Analog_Clock.c_2 (Analog_Clock.T c) = H / 2 ->
  Forall (drawn_on_canvas W H) (Analog_Clock.redraw c now).
Proof.
  intros Hs HW HH Hcs Hf H1 H2.
  unfold Analog_Clock.redraw, Analog_Clock.painthms.
  destruct (Analog_Clock.shown_hms c now) as [[h m] s].
  lazy beta iota zeta.
  unfold Analog_Clock.paintcircle, Analog_Clock.windowToViewport.
  rewrite Hcs. cbn [flat_map seq app].
  assert (Hc : Forall (drawn_on_canvas W H)
                 (if negb (Analog_Clock.showImage c)
                  then [canvas_create_oval
                          (Analog_Clock.__windowToViewport (Analog_Clock.T c)
                             (- (0.09 / 2.0) + 0) (- (0.09 / 2.0) + 0),
                           Analog_Clock.__windowToViewport (Analog_Clock.T c)
                             (0.09 / 2.0 + 0) (0.09 / 2.0 + 0))
                          (Analog_Clock.circlecolor c)]
                  else [])).
  { destruct (Analog_Clock.showImage c); cbn [negb];
      [apply Forall_nil |].
    apply Forall_cons; [| apply Forall_nil].
    split; apply (mapped_on_canvas _ W H side); try assumption; lra. }
  repeat (apply Forall_cons; [| ]); try exact Hc;
    cbn [drawn_on_canvas]; try exact I;
    (split; apply (mapped_on_canvas _ W H side); try assumption;
     trig_bounds; lra).
Qed.

Lemma same_place_on_canvas (W H : R) (a b : tk_call) :
  same_place a b -> drawn_on_canvas W H a -> drawn_on_canvas W H b.
Proof.
  intros [<- | (xy & fa & fb & tag & wa & wb & aa & ab & -> & ->)];
    [trivial |].
  destruct xy as [P Q]. trivial.
Qed.

Lemma Forall2_on_canvas (W H : R) (l l' : list tk_call) :
  Forall2 same_place l l' ->
  Forall (drawn_on_canvas W H) l -> Forall (drawn_on_canvas W H) l'.
Proof.
  induction 1 as [| a b l l' Hab _ IH]; intros Hl; [constructor |].
  inversion Hl; subst. constructor;
    [eapply same_place_on_canvas; eassumption | auto].
Qed.

Lemma mapper_init_of_canvas (w h : Z) :
  (0 < w)%Z -> (0 < h)%Z ->
  Analog_Clock.mapper_init (-1, -1, 1, 1)
    (IZR (py_min_int w h) / 16, IZR (py_min_int w h) / 16,
     IZR w - IZR (py_min_int w h) / 16, IZR h - IZR (py_min_int w h) / 16) =
  inr (mapper_of_canvas w h).
Proof.
  intros Hw Hh. destruct (mapper_init_canvas w h Hw Hh) as [-> Hf].
  f_equal. unfold mapper_of_canvas. rewrite Hf. apply mapper_eq; lra.
Qed.

Lemma Resize_value (second : string) (c : Analog_Clock.clock) (w h : Z)
    (now : datetime) :
  Analog_Clock.clock_world c = (-1, -1, 1, 1) ->
  (0 < w)%Z -> (0 < h)%Z ->
  let c' := clock_with_geometry c (IZR (py_min_int w h) / 16)
              (mapper_of_canvas w h) in
  proctor_clock.resize (to_Clock second c) true w h now =
  (to_Clock second c',
   redraw_call (canvas_delete ALL)
   :: (if Analog_Clock.showImage c
       then canvas_create_image (IZR w / 2) (IZR h / 2)
              (py_int (0.8 * 0.8 * IZR (py_min_int w h)),
               py_int (0.8 * IZR (py_min_int w h)))
       else canvas_create_rectangle ((0, 0), (IZR w, IZR h))
              (Analog_Clock.bgcolor c))
   :: map redraw_call (proctor_clock.redraw (to_Clock second c') now),
   None).
Proof.
  intros Hworld Hw Hh c'. unfold proctor_clock.resize.
  cbn [proctor_clock.Clock_world proctor_clock.pad to_Clock].
  rewrite Hworld, Mapper_init_to_Mapper, mapper_init_of_canvas by assumption.
  cbn [bind]. subst c'. unfold clock_with_geometry. rewrite Hworld.
  reflexivity.
Qed.

Lemma presses_to_Clock (second : string) (ks : list (key * datetime))
    (c : Analog_Clock.clock) :
  fst (proctor_clock.presses (to_Clock second c) ks) =
  to_Clock second (fst (Analog_Clock.presses c ks)).
Proof.
  revert c. induction ks as [| [k t] ks IH]; intros c; [reflexivity |].
  rewrite Presses_cons, presses_cons.
  rewrite (proj1 (press_to_Clock second c k t)). apply IH.
Qed.






(** After a [resize] to a canvas with two positive sides, everything is
    drawn on the canvas: the background that [resize] lays, the circles
    and hands of its redraw, and those of every later redraw, at whatever
    time and after whatever keys. *)
Theorem resize_draws_on_the_canvas (second : string)
    (c : Analog_Clock.clock) (ev : event) (w h : Z) (now : datetime) :
  built c -> (0 < w)%Z -> (0 < h)%Z ->
  exists c' calls Calls,
    Analog_Clock.resize c ev w h now = (c', calls, None) /\
    proctor_clock.resize (to_Clock second c) true w h now =
      (to_Clock second c', Calls, None) /\
    Forall (laid_on_canvas (IZR w) (IZR h)) calls /\
    Forall (laid_on_canvas (IZR w) (IZR h)) Calls /\
    (forall ks t,
       Forall (drawn_on_canvas (IZR w) (IZR h))
         (Analog_Clock.redraw (fst (Analog_Clock.presses c' ks)) t) /\
       Forall (drawn_on_canvas (IZR w) (IZR h))
         (proctor_clock.redraw
            (fst (proctor_clock.presses (to_Clock second c') ks)) t)).
Proof.
  intros Hb Hw Hh. assert (Hworld := proj1 Hb).
  destruct Hb as (_ & Hcs & _).
  destruct (canvas_side w h Hw Hh) as (Hs & Hsw & Hsh & _).
  set (c' := clock_with_geometry c (IZR (py_min_int w h) / 16)
               (mapper_of_canvas w h)).
  assert (Hr : forall dh dm t,
             Forall (drawn_on_canvas (IZR w) (IZR h))
               (Analog_Clock.redraw (clock_with_offsets c' dh dm) t)).
  { intros dh dm t.
    apply (redraw_on_canvas _ _ _ (IZR (py_min_int w h)));
      try assumption; reflexivity. }
  assert (Hr' : forall t,
             Forall (drawn_on_canvas (IZR w) (IZR h))
               (Analog_Clock.redraw c' t)).
  { intros t.
    apply (redraw_on_canvas _ _ _ (IZR (py_min_int w h)));
      try assumption; reflexivity. }
  assert (Hbg : laid_on_canvas (IZR w) (IZR h)
                  (if Analog_Clock.showImage c
                   then canvas_create_image (IZR w / 2) (IZR h / 2)
                          (py_int (0.8 * 0.8 * IZR (py_min_int w h)),
                           py_int (0.8 * IZR (py_min_int w h)))
                   else canvas_create_rectangle ((0, 0), (IZR w, IZR h))
                          (Analog_Clock.bgcolor c))).
  { destruct (Analog_Clock.showImage c); unfold laid_on_canvas, on_canvas;
      cbn [fst snd]; lra. }
  exists c'. do 2 eexists.
  split; [apply resize_value; assumption |].
  split; [apply Resize_value; assumption |].
  split; [| split].
  - apply Forall_cons; [exact I |]. apply Forall_cons; [exact Hbg |].
    apply Forall_map. apply Hr'.
  - apply Forall_cons; [exact I |]. apply Forall_cons; [exact Hbg |].
    apply Forall_map.
    apply (Forall2_on_canvas _ _ _ _ (redraw_same_place second c' now)).
    apply Hr'.
  - intros ks t. rewrite presses_to_Clock.
    destruct (presses_state ks c') as (dh & dm & ->).
    split; [apply Hr |].
    apply (Forall2_on_canvas _ _ _ _
             (redraw_same_place second (clock_with_offsets c' dh dm) t)).
    apply Hr.
Qed.

(** The clock that the constructor returns, attribute by attribute. *)
Lemma clock_init_value (have_image : bool) (dh : Z) (image : bool)
    (w h : R) :
  Analog_Clock.clock_init have_image dh image w h =
  inr (Analog_Clock.setColors
         {| Analog_Clock.clock_world := (-1, -1, 1, 1);
            Analog_Clock.showImage := if have_image then image else false;
            Analog_Clock.bgcolor := ""; Analog_Clock.timecolor := "";
            Analog_Clock.circlecolor := "";
            Analog_Clock.circlesize := 0.09;
            Analog_Clock._ALL := "handles";
            Analog_Clock.pad := w / 16;
            Analog_Clock.dMinutes := 0; Analog_Clock.dHours := 0;
            Analog_Clock.delta := dh;
            Analog_Clock.T :=
              {| Analog_Clock.world := (-1, -1, 1, 1);
                 Analog_Clock.viewport :=
                   (w / 16, w / 16, w - w / 16, h - w / 16);
                 Analog_Clock.f :=
                   Rmin ((w - w / 8) / 2) ((h - w / 8) / 2);
                 Analog_Clock.c_1 := w / 2;
                 Analog_Clock.c_2 := h / 2 |} |}).
Proof.
  unfold Analog_Clock.clock_init. rewrite mapper_init_value by lra.
  cbn [bind]. do 3 f_equal. rewrite py_min_Rmin.
  replace ((w - w / 16 - w / 16) / (1 - -1)) with ((w - w / 8) / 2) by lra.
  replace ((h - w / 16 - w / 16) / (1 - -1)) with ((h - w / 8) / 2) by lra.
  apply mapper_eq; lra.
Qed.

Lemma clock_init_built (have_image : bool) (dh : Z) (image : bool)
    (w h : R) (c : Analog_Clock.clock) :
  Analog_Clock.clock_init have_image dh image w h = inr c -> built c.
Proof.
  rewrite clock_init_value. intros E. injection E as <-.
  destruct have_image, image; repeat split; reflexivity.
Qed.

(** The first resize after the constructor.  On a canvas that is not wider
    than high, a resize to the size that the constructor was given changes
    no attribute.  On a wider canvas it does: the constructor pads by a
    sixteenth of the width, [resize] by a sixteenth of the height, the
    smaller side, so that the padding shrinks and the factor of the mapper
    grows. *)
Theorem first_resize (have_image : bool) (dh : Z) (image : bool)
    (ev : event) (w h : Z) (now : datetime) :
  (0 < w)%Z -> (0 < h)%Z ->
  exists c c',
    Analog_Clock.clock_init have_image dh image (IZR w) (IZR h) = inr c /\
    fst (fst (Analog_Clock.resize c ev w h now)) = c' /\
    proctor_clock.Clock_init have_image dh image (IZR w) (IZR h) =
      inr (to_Clock (if Analog_Clock.showImage c then "red" else "#ff0000")
             c) /\
    fst (fst (proctor_clock.resize
                (to_Clock (if Analog_Clock.showImage c then "red"
                           else "#ff0000") c) true w h now)) =
      to_Clock (if Analog_Clock.showImage c then "red" else "#ff0000") c' /\
    ((w <= h)%Z -> c' = c) /\
    ((h < w)%Z ->
     Analog_Clock.pad c' < Analog_Clock.pad c /\
     Analog_Clock.f (Analog_Clock.T c)
     < Analog_Clock.f (Analog_Clock.T c')).
Proof.
  intros Hw Hh.
  destruct (clock_init_returns have_image dh image (IZR w) (IZR h))
    as (c & Hc & HC & _).
  assert (Hb := clock_init_built _ _ _ _ _ _ Hc).
  exists c. eexists. split; [exact Hc |].
  rewrite resize_value, Resize_value by (assumption || apply Hb).
  cbn [fst]. split; [reflexivity |]. split; [exact HC |].
  split; [reflexivity |].
  rewrite clock_init_value in Hc. injection Hc as <-.
  pose proof (IZR_lt _ _ Hw) as Hw'. pose proof (IZR_lt _ _ Hh) as Hh'.
  split; intros L;
    destruct (py_min_int_cases w h) as [[L' E] | [L' E]]; try lia.
  - apply IZR_le in L.
    unfold clock_with_geometry, mapper_of_canvas. rewrite E.
    destruct have_image, image;
      cbn [Analog_Clock.setColors Analog_Clock.showImage
           Analog_Clock.clock_world Analog_Clock.bgcolor
           Analog_Clock.timecolor Analog_Clock.circlecolor
           Analog_Clock.circlesize Analog_Clock._ALL Analog_Clock.pad
           Analog_Clock.dMinutes Analog_Clock.dHours Analog_Clock.delta
           Analog_Clock.T];
      f_equal; apply mapper_eq; try reflexivity;
      rewrite Rmin_left by lra; lra.
  - apply IZR_lt in L.
    unfold clock_with_geometry, mapper_of_canvas. rewrite E.
    destruct have_image, image;
      cbn [Analog_Clock.setColors Analog_Clock.showImage
           Analog_Clock.pad Analog_Clock.T Analog_Clock.f];
      rewrite Rmin_right by lra; split; lra.
Qed.

Lemma first_resize_witness :
  exists c c',
    Analog_Clock.clock_init false 5 true (IZR 400) (IZR 300) = inr c /\
    fst (fst (Analog_Clock.resize c true 400 300 0%Z)) = c' /\
    Analog_Clock.pad c' < Analog_Clock.pad c /\
    Analog_Clock.f (Analog_Clock.T c) < Analog_Clock.f (Analog_Clock.T c').
Proof.
  destruct (first_resize false 5 true true 400 300 0%Z)
    as (c & c' & Hc & Hr & _ & _ & _ & Hl); [lia | lia |].
  exists c, c'. split; [exact Hc |]. split; [exact Hr |].
  apply Hl. lia.
Defined.


Lemma resize_draws_on_the_canvas_witness :
  exists c c' calls,
    Analog_Clock.clock_init false 5 true 400 400 = inr c /\
    Analog_Clock.resize c true 640 480 0%Z = (c', calls, None) /\
    Forall (laid_on_canvas (IZR 640) (IZR 480)) calls.
Proof.
  destruct (clock_init_returns false 5 true 400 400) as (c & Hc & _).
  destruct (resize_draws_on_the_canvas "#ff0000" c true 640 480 0%Z)
    as (c' & calls & _ & Hr & _ & Hl & _);
    [exact (clock_init_built _ _ _ _ _ _ Hc) | lia | lia |].
  exists c, c', calls. repeat split; assumption.
Defined.

(** ** The image flag and the attributes that stay *)





Lemma toggleImage_as_resize (c : Analog_Clock.clock) (ev : event) (w h : Z)
    (t : datetime) :
  Analog_Clock.toggleImage true c ev w h t =
  Analog_Clock.resize
    (Analog_Clock.setColors
       (clock_with_image c (negb (Analog_Clock.showImage c)))) ev w h t.
Proof. reflexivity. Qed.

Lemma toggle_image_as_resize (c : Analog_Clock.clock) (ev : event) (w h : Z)
    (t : datetime) :
  proctor_clock.toggle_image true
    (to_Clock (second_of (Analog_Clock.showImage c)) c) ev w h t =
  proctor_clock.resize
    (to_Clock (second_of (negb (Analog_Clock.showImage c)))
       (Analog_Clock.setColors
          (clock_with_image c (negb (Analog_Clock.showImage c))))) ev w h t.
Proof.
  destruct c as [wd si bg tc cc cs al pd dm dh dl T].
  destruct si; reflexivity.
Qed.


Lemma resize_state (c : Analog_Clock.clock) (second : string) (ev : event)
    (w h : Z) (t : datetime) (T0 : Analog_Clock.mapper) :
  Analog_Clock.clock_world c = (-1, -1, 1, 1) ->
  Analog_Clock.mapper_init (-1, -1, 1, 1)
    (IZR (py_min_int w h) / 16, IZR (py_min_int w h) / 16,
     IZR w - IZR (py_min_int w h) / 16, IZR h - IZR (py_min_int w h) / 16)
  = inr T0 ->
  fst (fst (Analog_Clock.resize c ev w h t)) =
    clock_with_geometry c (IZR (py_min_int w h) / 16) T0 /\
  fst (fst (proctor_clock.resize (to_Clock second c) true w h t)) =
    to_Clock second (clock_with_geometry c (IZR (py_min_int w h) / 16) T0).
Proof.
  intros Hworld HT.
  unfold Analog_Clock.resize, proctor_clock.resize.
  cbn [Analog_Clock.clock_world Analog_Clock.pad
       proctor_clock.Clock_world proctor_clock.pad to_Clock].
  rewrite Hworld, Mapper_init_to_Mapper, HT. cbn [bind fst].
  unfold clock_with_geometry. rewrite Hworld. split; reflexivity.
Qed.

Lemma toggled_twice (c : Analog_Clock.clock) (pad : R)
    (T0 : Analog_Clock.mapper) :
  Analog_Clock.setColors c = c ->
  let c1 :=
    clock_with_geometry
      (Analog_Clock.setColors
         (clock_with_image c (negb (Analog_Clock.showImage c)))) pad T0 in
  Analog_Clock.showImage c1 = negb (Analog_Clock.showImage c) /\
  clock_with_geometry
    (Analog_Clock.setColors
       (clock_with_image c1 (negb (Analog_Clock.showImage c1)))) pad T0 =
  clock_with_geometry c pad T0.
Proof.
  destruct c as [wd si bg tc cc cs al pd dm dh dl T].
  unfold Analog_Clock.setColors, clock_with_geometry, clock_with_image.
  cbn. destruct si; cbn; intros E; injection E as -> -> ->;
    split; reflexivity.
Qed.

(** The key [i].  Where no image can be loaded it does nothing: no call,
    no attribute changed.  Where one can, a press flips the image flag, and
    a second press on the same canvas leaves the clock as a plain resize
    of the first clock would: the flag and the colours are back, the
    padding and the mapper are those of the canvas. *)
Theorem toggle_twice (c : Analog_Clock.clock) (ev1 ev2 : event) (w h : Z)
    (t1 t2 : datetime) :
  built c ->
  let p := to_Clock (second_of (Analog_Clock.showImage c)) c in
  let c1 := fst (fst (Analog_Clock.toggleImage true c ev1 w h t1)) in
  let p1 := fst (fst (proctor_clock.toggle_image true p true w h t1)) in
  Analog_Clock.toggleImage false c ev1 w h t1 = (c, [], None) /\
  proctor_clock.toggle_image false p ev1 w h t1 = (p, [], None) /\
  Analog_Clock.showImage c1 = negb (Analog_Clock.showImage c) /\
  proctor_clock.show_image p1 = negb (Analog_Clock.showImage c) /\
  fst (fst (Analog_Clock.toggleImage true c1 ev2 w h t2)) =
    fst (fst (Analog_Clock.resize c ev2 w h t2)) /\
  fst (fst (proctor_clock.toggle_image true p1 true w h t2)) =
    fst (fst (proctor_clock.resize p true w h t2)).
Proof.
  intros Hb p c1 p1. split; [reflexivity |]. split; [reflexivity |].
  destruct Hb as (Hworld & _ & _ & Hs).
  destruct (Analog_Clock.mapper_init (-1, -1, 1, 1)
              (IZR (py_min_int w h) / 16, IZR (py_min_int w h) / 16,
               IZR w - IZR (py_min_int w h) / 16,
               IZR h - IZR (py_min_int w h) / 16)) as [e | T0] eqn:HT;
    [rewrite mapper_init_value in HT by lra; discriminate HT |].
  set (cf := Analog_Clock.setColors
               (clock_with_image c (negb (Analog_Clock.showImage c)))).
  assert (Hcf : Analog_Clock.clock_world cf = (-1, -1, 1, 1)).
  { subst cf. unfold Analog_Clock.setColors, clock_with_image. cbn.
    destruct (negb (Analog_Clock.showImage c)); exact Hworld. }
  assert (E1 : c1 = clock_with_geometry cf (IZR (py_min_int w h) / 16) T0).
  { subst c1. rewrite toggleImage_as_resize.
    apply (resize_state cf "" ev1 w h t1 T0 Hcf HT). }
  assert (E1' : p1 = to_Clock (second_of (Analog_Clock.showImage c1)) c1).
  { subst p1 p. rewrite toggle_image_as_resize.
    rewrite (proj2 (resize_state cf _ true w h t1 T0 Hcf HT)).
    rewrite E1. f_equal. f_equal.
    symmetry. apply (toggled_twice c (IZR (py_min_int w h) / 16) T0 Hs). }
  destruct (toggled_twice c (IZR (py_min_int w h) / 16) T0 Hs) as [Hsi Hback].
  fold cf in Hsi, Hback. rewrite <- E1 in Hsi, Hback.
  assert (Hc1 : Analog_Clock.clock_world
                  (Analog_Clock.setColors
                     (clock_with_image c1
                        (negb (Analog_Clock.showImage c1)))) =
                (-1, -1, 1, 1)).
  { unfold Analog_Clock.setColors, clock_with_image. cbn.
    destruct (negb (Analog_Clock.showImage c1)); rewrite E1; exact Hcf. }
  split; [exact Hsi |]. split; [rewrite E1'; exact Hsi |]. split.
  - rewrite toggleImage_as_resize.
    rewrite (proj1 (resize_state _ "" ev2 w h t2 T0 Hc1 HT)).
    rewrite (proj1 (resize_state c "" ev2 w h t2 T0 Hworld HT)).
    exact Hback.
  - rewrite E1', toggle_image_as_resize.
    rewrite (proj2 (resize_state _ _ true w h t2 T0 Hc1 HT)).
    subst p.
    rewrite (proj2 (resize_state c _ true w h t2 T0 Hworld HT)).
    rewrite Hback, Hsi, Bool.negb_involutive. reflexivity.
Qed.

Lemma toggle_twice_witness :
  exists c,
    Analog_Clock.clock_init true 5 true 400 400 = inr c /\
    Analog_Clock.showImage
      (fst (fst (Analog_Clock.toggleImage true c true 400 400 0%Z))) =
      negb (Analog_Clock.showImage c) /\
    fst (fst (Analog_Clock.toggleImage true
                (fst (fst (Analog_Clock.toggleImage true c true 400 400 0%Z)))
                true 400 400 1%Z)) =
      fst (fst (Analog_Clock.resize c true 400 400 1%Z)).
Proof.
  destruct (clock_init_returns true 5 true 400 400) as (c & Hc & _).
  exists c. split; [exact Hc |].
  destruct (toggle_twice c true true 400 400 0%Z 1%Z
              (clock_init_built _ _ _ _ _ _ Hc))
    as (_ & _ & H1 & _ & H2 & _).
  split; [exact H1 | exact H2].
Defined.


(** ** The command line *)

Lemma main_same (int : string -> option Z) (argv : list string) :
  proctor_clock.main int argv = Analog_Clock.main int argv.
Proof. reflexivity. Qed.

(** Too few arguments.  With the name of the program alone or with one
    argument, [main] starts the clock on its defaults (time zone 5, image,
    400 by 400, no thread): a lone time zone is ignored.  With two, three or
    four arguments [main] never starts the clock: it returns 1 if a number
    among them does not parse, and otherwise ends in the [IndexError] of
    the first argument that is missing. *)
Theorem main_with_few_arguments (int : string -> option Z)
    (argv : list string) :
  ((List.length argv <= 2)%nat ->
   Analog_Clock.main int argv = mainloop 5 true 400 400 false /\
   proctor_clock.main int argv = mainloop 5 true 400 400 false) /\
  ((3 <= List.length argv <= 5)%nat ->
   (Analog_Clock.main int argv = return_1 \/
    Analog_Clock.main int argv = IndexError) /\
   (Analog_Clock.main int argv = return_1 <->
    exists i a, (i = 1 \/ i = 3 \/ i = 4)%nat /\
                nth_error argv i = Some a /\ int a = None) /\
   proctor_clock.main int argv = Analog_Clock.main int argv).
Proof.
  split.
  - intros Hl. unfold proctor_clock.main, Analog_Clock.main.
    destruct (Nat.ltb_spec 2 (List.length argv)); [lia |].
    split; reflexivity.
  - intros Hl. split; [| split; [| reflexivity]].
    + destruct argv as [| a0 [| a1 [| a2 [| a3 [| a4 [| a5 l]]]]]];
        cbn [List.length] in Hl; try lia;
        unfold Analog_Clock.main; cbn [List.length Nat.ltb Nat.leb nth_error];
        destruct (int a1); auto;
        try (destruct (int a3); auto);
        try (destruct (int a4); auto).
    + destruct argv as [| a0 [| a1 [| a2 [| a3 [| a4 [| a5 l]]]]]];
        cbn [List.length] in Hl; try lia;
        unfold Analog_Clock.main; cbn [List.length Nat.ltb Nat.leb nth_error];
        (split;
         [ intros E;
           destruct (int a1) eqn:E1;
           [| exists 1%nat, a1; cbn; auto];
           try (destruct (int a3) eqn:E3;
                [| exists 3%nat, a3; cbn; auto];
                try (destruct (int a4) eqn:E4;
                     [| exists 4%nat, a4; cbn; auto]));
           discriminate E
         | intros (i & a & Hi & Hn & Ha);
           destruct Hi as [-> | [-> | ->]]; cbn [nth_error] in Hn;
           try discriminate Hn; injection Hn as <-;
           destruct (int a1); try discriminate Ha; try reflexivity;
           try (destruct (int a3); try discriminate Ha; try reflexivity;
                try (destruct (int a4); try discriminate Ha;
                     try reflexivity)) ]).
Qed.

Lemma main_with_few_arguments_witness :
  Analog_Clock.main (fun _ => Some 3%Z) ["clock"; "3"]%string =
    mainloop 5 true 400 400 false /\
  Analog_Clock.main (fun _ => Some 3%Z) ["clock"; "3"; "True"]%string =
    IndexError.
Proof.
  destruct (main_with_few_arguments (fun _ => Some 3%Z)
              ["clock"; "3"]%string) as [Hd _].
  destruct (main_with_few_arguments (fun _ => Some 3%Z)
              ["clock"; "3"; "True"]%string) as [_ Hf].
  split; [apply Hd; cbn; lia |].
  destruct Hf as ([E | E] & Hr & _); [cbn; lia | | exact E].
  apply Hr in E. destruct E as (i & a & _ & _ & Ha). discriminate Ha.
Defined.

(** All the arguments.  With five arguments or more [main] never ends in
    an [IndexError], and it starts the clock exactly when the first, third
    and fourth parse as integers: then with these as time zone, width and
    height, with the image exactly when the second argument is the string
    [True] and with the thread exactly when the fifth is; otherwise it
    returns 1.  Arguments after the fifth are ignored. *)
Theorem main_with_all_arguments (int : string -> option Z)
    (a0 a1 a2 a3 a4 a5 : string) (rest : list string) :
  let argv := a0 :: a1 :: a2 :: a3 :: a4 :: a5 :: rest in
  Analog_Clock.main int argv <> IndexError /\
  (forall d w h,
     int a1 = Some d -> int a3 = Some w -> int a4 = Some h ->
     Analog_Clock.main int argv =
       mainloop d (String.eqb a2 "True") w h (String.eqb a5 "True")) /\
  (int a1 = None \/ int a3 = None \/ int a4 = None ->
   Analog_Clock.main int argv = return_1) /\
  proctor_clock.main int argv = Analog_Clock.main int argv.
Proof.
  intros argv. subst argv. unfold Analog_Clock.main.
  cbn [List.length Nat.ltb Nat.leb nth_error].
  split; [| split; [| split; [| reflexivity]]].
  - destruct (int a1); [| discriminate].
    destruct (int a3); [| discriminate].
    destruct (int a4); discriminate.
  - intros d w h -> -> ->. reflexivity.
  - intros [E | [E | E]]; rewrite ?E;
      destruct (int a1); try reflexivity; try discriminate E;
      destruct (int a3); try reflexivity; try discriminate E;
      rewrite ?E; destruct (int a4); try reflexivity; discriminate E.
Qed.

Lemma main_with_all_arguments_witness :
  Analog_Clock.main (fun _ => Some 3%Z)
    ["clock"; "3"; "true"; "3"; "3"; "True"; "more"]%string =
  mainloop 3 false 3 3 true.
Proof.
  destruct (main_with_all_arguments (fun _ => Some 3%Z)
              "clock" "3" "true" "3" "3" "True" ["more"%string])
    as (_ & Hs & _).
  apply (Hs 3%Z 3%Z 3%Z); reflexivity.
Defined.

(** ** Reading the title *)

Lemma fmt_02i_two_digits (n : Z) :
  (0 <= n < 60)%Z ->
  exists a b, fmt_02i n = String a (String b EmptyString) /\
              two_digits a b = n.
Proof.
  intros Hn.
  assert (Hall : forallb
                   (fun k : nat =>
                      match fmt_02i (Z.of_nat k) with
                      | String a (String b EmptyString) =>
                          Z.eqb (two_digits a b) (Z.of_nat k)
                      | _ => false
                      end) (seq 0 60) = true) by (vm_compute; reflexivity).
  rewrite forallb_forall in Hall.
  specialize (Hall (Z.to_nat n)).
  rewrite Z2Nat.id in Hall by lia.
  assert (Hin : In (Z.to_nat n) (seq 0 60)) by (apply in_seq; lia).
  specialize (Hall Hin).
  destruct (fmt_02i n) as [| a [| b [| c r]]]; try discriminate Hall.
  exists a, b. split; [reflexivity |]. apply Z.eqb_eq. exact Hall.
Qed.

Lemma fmt_hms_read_back (h m s : Z) :
  (0 <= h < 60)%Z -> (0 <= m < 60)%Z -> (0 <= s < 60)%Z ->
  String.length (fmt_hms h m s) = 8%nat /\
  hms_of_title (fmt_hms h m s) = Some (h, m, s).
Proof.
  intros Hh Hm Hs. unfold fmt_hms.
  destruct (fmt_02i_two_digits h Hh) as (a & b & -> & <-).
  destruct (fmt_02i_two_digits m Hm) as (c & d & -> & <-).
  destruct (fmt_02i_two_digits s Hs) as (e & f & -> & <-).
  split; reflexivity.
Qed.

(** The title can be read back.  At every redraw the title has the eight
    characters of [HH:MM:SS], and reading its three fields as decimal
    numbers gives the hour, minute and second shown; so two redraws with
    the same title show the same time.  The two files agree. *)
Theorem title_reads_back (a : Analog_Clock.clock) (p : proctor_clock.Clock)
    (now : datetime) :
  (exists title,
     nth_error (Analog_Clock.painthms a now) 1 = Some (root_title title) /\
     String.length title = 8%nat /\
     hms_of_title title = Some (Analog_Clock.shown_hms a now)) /\
  (exists title,
     nth_error (proctor_clock.paint_hms p now) 1 = Some (root_title title) /\
     String.length title = 8%nat /\
     hms_of_title title = Some (proctor_clock.shown_hms p now)).
Proof.
  split.
  - destruct (Analog_Clock.shown_hms a now) as [[h m] s] eqn:E.
    destruct (shown_hms_range a now h m s E) as (Hh & Hm & Hs).
    exists (fmt_hms h m s).
    split; [unfold Analog_Clock.painthms; rewrite E; reflexivity |].
    apply fmt_hms_read_back; lia.
  - destruct (proctor_clock.shown_hms p now) as [[h m] s] eqn:E.
    destruct (Shown_hms_range p now h m s E) as (Hh & Hm & Hs).
    exists (fmt_hms h m s).
    split; [unfold proctor_clock.paint_hms; rewrite E; reflexivity |].
    apply fmt_hms_read_back; lia.
Qed.

(** ** The image *)



